(** * workshop-demo: the todo service and its file attachments

    A shallow embedding of the Express route handlers of [server.js] and of
    the three sibling variants of that file kept in the repository, over an
    explicit model of the two external collaborators the handlers talk to:
    the PostgreSQL table [todos] and the S3-compatible bucket.

    - JavaScript exceptions and the mutable stores are threaded through a
      small state-and-exception monad [M];
    - everything the handlers cannot decide themselves (the clocks, whether
      a statement reaches the database, what the bucket answers) is read
      from a per-request environment [Env];
    - text is ASCII: one character of a [string] is one character of the
      column types. *)

From Stdlib Require Import ZArith String Ascii List Lia DecimalString.
From stdpp Require Import base list sorting gmap strings.

Local Open Scope string_scope.
Local Open Scope Z_scope.

(** ** JavaScript strings *)

Module Js.

(** [`${n}`] for an integer. *)
Definition string_of_Z (n : Z) : string := NilZero.string_of_int (Z.to_int n).

(** [if (s)] on a value that is a string, [null] or [undefined]. *)
Definition truthy (s : option string) : bool :=
  match s with
  | None => false
  | Some s => negb (String.eqb s "")
  end.

(** [s.split(c)]: always at least one piece. *)
Fixpoint split (c : ascii) (s : string) : list string :=
  match s with
  | EmptyString => [EmptyString]
  | String a s' =>
      if Ascii.eqb a c then EmptyString :: split c s'
      else match split c s' with
           | [] => [String a EmptyString]
           | p :: ps => String a p :: ps
           end
  end.

(** [a.pop()] read as a value; [undefined] on the empty array. *)
Definition pop (a : list string) : option string := last a.

(** [a.slice(-n)]: the last [n] elements, all of them when there are
    fewer. *)
Definition slice_last (n : nat) (a : list string) : list string :=
  drop (length a - n)%nat a.

(** [a.join(sep)]. *)
Definition join (sep : string) (a : list string) : string := String.concat sep a.

(** [s.toLowerCase()] on ASCII text. *)
Definition lower_ascii (a : ascii) : ascii :=
  let n := nat_of_ascii a in
  if ((65 <=? n) && (n <=? 90))%nat then ascii_of_nat (n + 32) else a.

Fixpoint toLowerCase (s : string) : string :=
  match s with
  | EmptyString => EmptyString
  | String a s' => String (lower_ascii a) (toLowerCase s')
  end.

(** [s.includes(p)]. *)
Fixpoint includes (p s : string) : bool :=
  String.prefix p s ||
  match s with
  | EmptyString => false
  | String _ s' => includes p s'
  end.

(** [/a|b|c/.test(s)] for a regular expression that is an alternation of
    literals: some alternative occurs somewhere in [s]. *)
Definition regex_alt_test (alts : list string) (s : string) : bool :=
  existsb (fun p => includes p s) alts.

End Js.

(** ** [path.extname] (POSIX), after Node's [lib/path.js] *)

Module Path.

Record scan := {
  startDot : Z;
  startPart : Z;
  end_ : Z;
  matchedSlash : bool;
  preDotState : Z
}.

Definition scan0 : scan :=
  {| startDot := -1; startPart := 0; end_ := -1; matchedSlash := true;
     preDotState := 0 |}.

Definition CHAR_FORWARD_SLASH : ascii := "/"%char.
Definition CHAR_DOT : ascii := "."%char.

(** One iteration of the backward loop at index [i]; [inr] is [break]. *)
Definition step (path : string) (i : Z) (st : scan) : scan + scan :=
  match String.get (Z.to_nat i) path with
  | None => inl st
  | Some code =>
      if Ascii.eqb code CHAR_FORWARD_SLASH then
        if negb (matchedSlash st) then
          inr {| startDot := startDot st; startPart := i + 1; end_ := end_ st;
                 matchedSlash := matchedSlash st; preDotState := preDotState st |}
        else inl st
      else
        let st1 :=
          if end_ st =? -1 then
            {| startDot := startDot st; startPart := startPart st; end_ := i + 1;
               matchedSlash := false; preDotState := preDotState st |}
          else st in
        if Ascii.eqb code CHAR_DOT then
          if startDot st1 =? -1 then
            inl {| startDot := i; startPart := startPart st1; end_ := end_ st1;
                   matchedSlash := matchedSlash st1; preDotState := preDotState st1 |}
          else if negb (preDotState st1 =? 1) then
            inl {| startDot := startDot st1; startPart := startPart st1;
                   end_ := end_ st1; matchedSlash := matchedSlash st1;
                   preDotState := 1 |}
          else inl st1
        else if negb (startDot st1 =? -1) then
          inl {| startDot := startDot st1; startPart := startPart st1;
                 end_ := end_ st1; matchedSlash := matchedSlash st1;
                 preDotState := -1 |}
        else inl st1
  end.

(** [for (let i = path.length - 1; i >= 0; --i)], [n] iterations left. *)
Fixpoint loop (path : string) (n : nat) (st : scan) : scan :=
  match n with
  | O => st
  | S n' =>
      match step path (Z.of_nat n') st with
      | inl st' => loop path n' st'
      | inr st' => st'
      end
  end.

Definition extname (path : string) : string :=
  let st := loop path (String.length path) scan0 in
  if (startDot st =? -1) || (end_ st =? -1) || (preDotState st =? 0) ||
     ((preDotState st =? 1) && (startDot st =? end_ st - 1) &&
      (startDot st =? startPart st + 1))
  then ""
  else String.substring (Z.to_nat (startDot st))
                        (Z.to_nat (end_ st - startDot st)) path.

End Path.

(** ** The data model: one row of the table [todos] *)

Module Todo.

(** Columns as [initDB] declares them.  [title] is [NOT NULL]; every other
    column the handlers write may hold [NULL].  The two timestamps are only
    ever written from [CURRENT_TIMESTAMP]. *)
Record t := {
  id : Z;
  title : string;
  description : option string;
  completed : option bool;
  file_url : option string;
  file_name : option string;
  created_at : Z;
  updated_at : Z
}.

End Todo.

(** ** JavaScript errors *)

Inductive ErrorClass := PlainError | TypeError | MulterError | DatabaseError | ServiceError.

Record JsError := {
  class : ErrorClass;
  code : string;
  message : string
}.

Definition new_Error (msg : string) : JsError :=
  {| class := PlainError; code := ""; message := msg |}.

Definition new_TypeError (msg : string) : JsError :=
  {| class := TypeError; code := ""; message := msg |}.

(** ** The bucket, as the handlers see it *)

Module S3.

Record upload_params := {
  Bucket : option string;
  Key : string;
  Body : option string;
  ContentType : string;
  ACL : string
}.

Record delete_params := {
  del_Bucket : option string;
  del_Key : string
}.

(** The calls made on the storage client, oldest first. *)
Inductive call :=
| Upload (p : upload_params)
| DeleteObject (p : delete_params).

Definition is_upload (c : call) : bool :=
  match c with Upload _ => true | DeleteObject _ => false end.

Definition is_deleteObject (c : call) : bool :=
  match c with Upload _ => false | DeleteObject _ => true end.

Definition rejected : JsError :=
  {| class := ServiceError; code := "S3"; message := "storage request failed" |}.

End S3.

(** ** What a request finds around it *)

Inductive statement := SELECT_ALL | SELECT_BY_ID | INSERT | UPDATE | DELETE.

(** [process.env] *)
Record ProcessEnv := {
  DATABASE_URL : option string;
  SPACES_ENDPOINT : option string;
  SPACES_KEY : option string;
  SPACES_SECRET : option string;
  SPACES_BUCKET : option string;
  DO_SPACES_BUCKET : option string
}.

Record Env := {
  process_env : ProcessEnv;
  (** [Date.now()] of the Node process, in milliseconds *)
  Date_now : Z;
  (** [CURRENT_TIMESTAMP] of the database server *)
  CURRENT_TIMESTAMP : Z;
  (** the statement does not get through (connection lost, malformed
      parameter): [pool.query] rejects and the table is not touched *)
  pg_fault : statement -> bool;
  (** [s3.upload(params).promise()]: the [Location] of the stored object,
      or a rejection *)
  s3_upload : S3.upload_params -> option string;
  (** [s3.deleteObject(params).promise()]: resolves or rejects *)
  s3_deleteObject : S3.delete_params -> bool
}.

Record World := {
  todos : list Todo.t;
  (** next value of the sequence behind [id SERIAL] *)
  todos_id_seq : Z;
  s3_calls : list S3.call
}.

(** ** Computations that read and write the world and may throw *)

Inductive Outcome (A : Type) :=
| Return (a : A)
| Throw (e : JsError).

Arguments Return {A} a.
Arguments Throw {A} e.

Definition M (A : Type) : Type := World -> Outcome A * World.

Definition ret {A} (a : A) : M A := fun w => (Return a, w).

Definition throw {A} (e : JsError) : M A := fun w => (Throw e, w).

Definition bind {A B} (m : M A) (k : A -> M B) : M B :=
  fun w =>
    match m w with
    | (Return a, w') => k a w'
    | (Throw e, w') => (Throw e, w')
    end.

(** [try { m } catch (e) { h e }] where the handler may itself throw.
    What [m] did to the world before throwing stays done. *)
Definition try_catch {A} (m : M A) (h : JsError -> M A) : M A :=
  fun w =>
    match m w with
    | (Return a, w') => (Return a, w')
    | (Throw e, w') => h e w'
    end.

(** The outermost [try]/[catch] of a route handler: the catch clause only
    logs and sends a response, so the handler always answers. *)
Definition try_respond {A} (m : M A) (h : JsError -> A) : World -> A * World :=
  fun w =>
    match m w with
    | (Return a, w') => (a, w')
    | (Throw e, w') => (h e, w')
    end.

Notation "x <- m ;; k" := (bind m (fun x => k))
  (at level 100, m at next level, right associativity).
Notation "m ;;; k" := (bind m (fun _ => k))
  (at level 100, right associativity).

Definition with_todos (l : list Todo.t) (w : World) : World :=
  {| todos := l; todos_id_seq := todos_id_seq w; s3_calls := s3_calls w |}.

Definition with_seq (n : Z) (w : World) : World :=
  {| todos := todos w; todos_id_seq := n; s3_calls := s3_calls w |}.

Definition with_call (c : S3.call) (w : World) : World :=
  {| todos := todos w; todos_id_seq := todos_id_seq w;
     s3_calls := s3_calls w ++ [c] |}.

(** ** The table [todos] and the five statements the handlers send *)

Module Pg.

Definition db_error (sqlstate msg : string) : JsError :=
  {| class := DatabaseError; code := sqlstate; message := msg |}.

Definition connection_failure : JsError :=
  db_error "08006" "the statement did not reach the database".
Definition not_null_violation : JsError :=
  db_error "23502" "null value in column title violates not-null constraint".
Definition unique_violation : JsError :=
  db_error "23505" "duplicate key value violates unique constraint todos_pkey".
(** What a [VARCHAR(n)] column says of a value it cannot hold. *)
Definition string_data_right_truncation (n : nat) : JsError :=
  db_error "22001"
    (String.append "value too long for type character varying("
       (String.append (Js.string_of_Z (Z.of_nat n)) ")")).
Definition sequence_limit_exceeded : JsError :=
  db_error "2200H" "nextval: reached maximum value of sequence todos_id_seq".

(** [SERIAL] is a four-byte integer. *)
Definition INT4_MAX : Z := 2147483647.
Definition INT4_MIN : Z := -2147483648.

(** A parameter the database can read as an [integer]. *)
Definition int4 (i : Z) : bool := (INT4_MIN <=? i) && (i <=? INT4_MAX).

(** The values the sequence behind [SERIAL] hands out: 1 to 2147483647. *)
Definition in_sequence (i : Z) : bool := (1 <=? i) && (i <=? INT4_MAX).

(** What the database says of a parameter for [id] that is no four-byte
    integer; the statement is refused when its parameters are read. *)
Definition numeric_value_out_of_range (i : Z) : JsError :=
  db_error "22003"
    (String.append "value "
       (String.append (String (Ascii.ascii_of_nat 34) (Js.string_of_Z i))
          (String (Ascii.ascii_of_nat 34) " is out of range for type integer"))).

Definition all_spaces (s : string) : bool :=
  forallb (Ascii.eqb " "%char) (list_ascii_of_string s).

(** Storing [s] in a [VARCHAR(n)] column: an over-long value is an error
    unless everything beyond [n] characters is spaces, which are cut. *)
Definition varchar (n : nat) (s : string) : option string :=
  if (String.length s <=? n)%nat then Some s
  else if all_spaces (String.substring n (String.length s - n) s)
       then Some (String.substring 0 n s)
       else None.

(** The same for a parameter that may be [null] ([undefined] is sent as
    [null]): the outer [None] is the error. *)
Definition varchar_param (n : nat) (p : option string) : option (option string) :=
  match p with
  | None => Some None
  | Some s =>
      match varchar n s with
      | Some s' => Some (Some s')
      | None => None
      end
  end.

(** [id = $n]: the parameter, read as a four-byte integer, is the id of
    the row.  A parameter outside that range is the id of no row. *)
Definition has_id (i : Z) (r : Todo.t) : bool := int4 i && (Todo.id r =? i).

(** [ORDER BY created_at DESC] *)
Definition newest_first (a b : Todo.t) : Prop :=
  Todo.created_at b <= Todo.created_at a.

#[global] Instance newest_first_dec : RelDecision newest_first.
Proof. intros a b. unfold newest_first. apply Z_le_dec. Defined.

#[global] Instance newest_first_total : Total newest_first.
Proof. intros a b. unfold newest_first. lia. Qed.

#[global] Instance newest_first_trans : Transitive newest_first.
Proof. intros a b c. unfold newest_first. lia. Qed.

(** [SELECT * FROM todos ORDER BY created_at DESC].  Among rows of equal
    [created_at] the database is free to choose; the model takes the
    order of a merge sort. *)
Definition select_all (env : Env) : M (list Todo.t) :=
  fun w =>
    if pg_fault env SELECT_ALL then (Throw connection_failure, w)
    else (Return (merge_sort newest_first (todos w)), w).

(** [SELECT * FROM todos WHERE id = $1] *)
Definition select_by_id (env : Env) (i : Z) : M (list Todo.t) :=
  fun w =>
    if pg_fault env SELECT_BY_ID then (Throw connection_failure, w)
    else if int4 i then (Return (List.filter (has_id i) (todos w)), w)
    else (Throw (numeric_value_out_of_range i), w).

(** The row an [INSERT] makes of its values and the column defaults. *)
Definition new_row (env : Env) (i : Z) (t : string)
    (c_description c_file_url c_file_name : option string) : Todo.t :=
  {| Todo.id := i;
     Todo.title := t;
     Todo.description := c_description;
     Todo.completed := Some false;
     Todo.file_url := c_file_url;
     Todo.file_name := c_file_name;
     Todo.created_at := CURRENT_TIMESTAMP env;
     Todo.updated_at := CURRENT_TIMESTAMP env |}.

(** [INSERT INTO todos (title, description, file_url, file_name)
     VALUES ($1, $2, $3, $4) RETURNING *].
    The parameters are fitted to their columns first; then the sequence
    gives the [id] (a value taken is not given back when the row is
    refused), [completed] and the two timestamps take their defaults, and
    the constraints are checked. *)
Definition insert (env : Env) (p_title p_description p_file_url p_file_name : option string)
  : M (list Todo.t) :=
  fun w =>
    if pg_fault env INSERT then (Throw connection_failure, w)
    else
      match varchar_param 255 p_title with
      | None => (Throw (string_data_right_truncation 255), w)
      | Some c_title =>
      match varchar_param 500 p_file_url with
      | None => (Throw (string_data_right_truncation 500), w)
      | Some c_file_url =>
      match varchar_param 255 p_file_name with
      | None => (Throw (string_data_right_truncation 255), w)
      | Some c_file_name =>
          let i := todos_id_seq w in
          if in_sequence i then
            let w1 := with_seq (i + 1) w in
            match c_title with
            | None => (Throw not_null_violation, w1)
            | Some t =>
                if existsb (has_id i) (todos w) then (Throw unique_violation, w1)
                else
                  let row := new_row env i t p_description c_file_url c_file_name in
                  (Return [row], with_todos (todos w ++ [row]) w1)
            end
          else (Throw sequence_limit_exceeded, w)
      end end end.

(** The [SET] list of the update, applied to one row. *)
Definition set_columns (env : Env) (t : string) (p_description : option string)
    (p_completed : option bool) (r : Todo.t) : Todo.t :=
  {| Todo.id := Todo.id r;
     Todo.title := t;
     Todo.description := p_description;
     Todo.completed := p_completed;
     Todo.file_url := Todo.file_url r;
     Todo.file_name := Todo.file_name r;
     Todo.created_at := Todo.created_at r;
     Todo.updated_at := CURRENT_TIMESTAMP env |}.

(** [UPDATE todos SET title = $1, description = $2, completed = $3,
     updated_at = CURRENT_TIMESTAMP WHERE id = $4 RETURNING *].
    The id is read as a four-byte integer and the title is fitted to its
    column before any row is looked at; [NOT NULL] is checked on the rows
    the statement writes, so it cannot fail when no row matches. *)
Definition update (env : Env) (p_title p_description : option string)
    (p_completed : option bool) (i : Z) : M (list Todo.t) :=
  fun w =>
    if pg_fault env UPDATE then (Throw connection_failure, w)
    else if int4 i then
      match varchar_param 255 p_title with
      | None => (Throw (string_data_right_truncation 255), w)
      | Some c_title =>
          match List.filter (has_id i) (todos w) with
          | [] => (Return [], w)
          | matched =>
              match c_title with
              | None => (Throw not_null_violation, w)
              | Some t =>
                  let set := set_columns env t p_description p_completed in
                  (Return (List.map set matched),
                   with_todos
                     (List.map (fun r => if has_id i r then set r else r) (todos w))
                     w)
              end
          end
      end
    else (Throw (numeric_value_out_of_range i), w).

(** [DELETE FROM todos WHERE id = $1] *)
Definition delete (env : Env) (i : Z) : M unit :=
  fun w =>
    if pg_fault env DELETE then (Throw connection_failure, w)
    else if int4 i then
      (Return tt, with_todos (List.filter (fun r => negb (has_id i r)) (todos w)) w)
    else (Throw (numeric_value_out_of_range i), w).

End Pg.

(** ** The two storage requests *)

(** [await s3.upload(params).promise()] *)
Definition s3_upload_promise (env : Env) (p : S3.upload_params) : M string :=
  fun w =>
    match s3_upload env p with
    | Some location => (Return location, with_call (S3.Upload p) w)
    | None => (Throw S3.rejected, with_call (S3.Upload p) w)
    end.

(** [await s3.deleteObject(params).promise()] *)
Definition s3_deleteObject_promise (env : Env) (p : S3.delete_params) : M unit :=
  fun w =>
    if s3_deleteObject env p
    then (Return tt, with_call (S3.DeleteObject p) w)
    else (Throw S3.rejected, with_call (S3.DeleteObject p) w).

(** ** Requests and responses *)

(** What [res.status(n).json(v)] sends. *)
Inductive Json :=
| JTodo (row : Todo.t)
| JTodos (rows : list Todo.t)
| JError (error : string)
| JMessage (message : string)
| JUndefined.

Record Response := {
  status : Z;
  json : Json
}.

(** [res.json(v)] answers 200. *)
Definition res_json (v : Json) : Response := {| status := 200; json := v |}.

Definition res_status_json (n : Z) (v : Json) : Response := {| status := n; json := v |}.

(** [result.rows[0]] *)
Definition rows0 (rows : list Todo.t) : Json :=
  match rows with
  | r :: _ => JTodo r
  | [] => JUndefined
  end.

(** ** Multer: [upload.single('file')] *)

Module Multer.

(** The file part of a multipart form, and the [req.file] made of it.
    With [memoryStorage] the bytes are in [buffer]; with [dest] they go to
    a temporary file and [buffer] is [undefined]. *)
Record File := {
  originalname : string;
  mimetype : string;
  size : Z;
  buffer : option string
}.

Record Form := {
  form_title : option string;
  form_description : option string;
  form_file : option File
}.

Inductive Storage := memoryStorage | diskStorage.

Record Options := {
  storage : Storage;
  limits_fileSize : Z;
  (** [cb(err)] is [inl err]; [cb(null, b)] is [inr b] *)
  fileFilter : File -> JsError + bool
}.

Definition LIMIT_FILE_SIZE : JsError :=
  {| class := MulterError; code := "LIMIT_FILE_SIZE"; message := "File too large" |}.

Definition stored (s : Storage) (f : File) : File :=
  {| originalname := originalname f; mimetype := mimetype f; size := size f;
     buffer := match s with memoryStorage => buffer f | diskStorage => None end |}.

(** The filter sees the part's headers before any of its bytes are read;
    the size limit trips while an accepted file is streamed in, as soon
    as the bytes read reach the limit, so that a file of exactly the
    limit is refused too.  Either way the error goes to [next(err)] and
    the route handler is skipped. *)
Definition single (o : Options) (form : Form) : JsError + Form :=
  match form_file form with
  | None => inr form
  | Some f =>
      match fileFilter o f with
      | inl err => inl err
      | inr false =>
          inr {| form_title := form_title form;
                 form_description := form_description form;
                 form_file := None |}
      | inr true =>
          if limits_fileSize o <=? size f then inl LIMIT_FILE_SIZE
          else inr {| form_title := form_title form;
                      form_description := form_description form;
                      form_file := Some (stored (storage o) f) |}
      end
  end.

End Multer.

(** [PUT /api/todos/:id] with its JSON body.  The [:id] of the path is an
    integer of any size (the database refuses one that does not fit four
    bytes); any other text makes a statement the database refuses, which
    is a [pg_fault].  A field left out of the body is [undefined], sent
    to the database as [NULL]. *)
Record UpdateRequest := {
  params_id : Z;
  body_title : option string;
  body_description : option string;
  body_completed : option bool
}.

(** [`${v}`] for a value that may be [undefined]. *)
Definition template (v : option string) : string :=
  match v with
  | Some s => s
  | None => "undefined"
  end.

(** An assignment to a [const] binding throws when it is executed. *)
Definition assign_to_const : M unit :=
  throw (new_TypeError "Assignment to constant variable.").

(** ** [server.js] *)

Module ServerJs.

Definition allowedTypes : list string := ["jpeg"; "jpg"; "png"; "gif"; "pdf"; "txt"].

Definition fileFilter (file : Multer.File) : JsError + bool :=
  let extname :=
    Js.regex_alt_test allowedTypes
      (Js.toLowerCase (Path.extname (Multer.originalname file))) in
  let mimetype := Js.regex_alt_test allowedTypes (Multer.mimetype file) in
  if mimetype && extname then inr true
  else inl (new_Error "Only images, PDFs, and text files are allowed").

Definition upload : Multer.Options :=
  {| Multer.storage := Multer.memoryStorage;
     Multer.limits_fileSize := 5 * 1024 * 1024;
     Multer.fileFilter := fileFilter |}.

(** [app.get('/api/todos')] *)
Definition get_todos (env : Env) : World -> Response * World :=
  try_respond
    (result <- Pg.select_all env ;;
     ret (res_json (JTodos result)))
    (fun error => res_status_json 500 (JError "Failed to fetch todos")).

(** The handler of [app.post('/api/todos')], after the upload middleware.
    Inside the [if (req.file)] block [fileName] is the block's own
    [const], so the outer [fileName] is never written and the assignment
    that closes the block throws. *)
Definition create (env : Env) (req : Multer.Form) : World -> Response * World :=
  try_respond
    (let title := Multer.form_title req in
     let description := Multer.form_description req in
     attachment <-
       match Multer.form_file req with
       | Some file =>
           let fileName :=
             String.append (Js.string_of_Z (Date_now env))
               (String.append "-" (Multer.originalname file)) in
           let uploadParams :=
             {| S3.Bucket := SPACES_BUCKET (process_env env);
                S3.Key := String.append "uploads/" fileName;
                S3.Body := Multer.buffer file;
                S3.ContentType := Multer.mimetype file;
                S3.ACL := "public-read" |} in
           uploadResult <- s3_upload_promise env uploadParams ;;
           let fileUrl := Some uploadResult in
           assign_to_const ;;;
           ret (fileUrl, @None string)
       | None => ret (@None string, @None string)
       end ;;
     result <- Pg.insert env title description (fst attachment) (snd attachment) ;;
     ret (res_status_json 201 (rows0 result)))
    (fun error => res_status_json 500 (JError "Failed to create todo")).

(** [app.put('/api/todos/:id')] *)
Definition update (env : Env) (req : UpdateRequest) : World -> Response * World :=
  try_respond
    (result <-
       Pg.update env (body_title req) (body_description req) (body_completed req)
         (params_id req) ;;
     match result with
     | [] => ret (res_status_json 404 (JError "Todo not found"))
     | _ => ret (res_json (rows0 result))
     end)
    (fun error => res_status_json 500 (JError "Failed to update todo")).

(** [app.delete('/api/todos/:id')] *)
Definition delete (env : Env) (id : Z) : World -> Response * World :=
  try_respond
    (todo <- Pg.select_by_id env id ;;
     match todo with
     | [] => ret (res_status_json 404 (JError "Todo not found"))
     | row :: _ =>
         (if Js.truthy (Todo.file_url row) then
            let fileKey := Js.pop (Js.split "/" (template (Todo.file_url row))) in
            s3_deleteObject_promise env
              {| S3.del_Bucket := SPACES_BUCKET (process_env env);
                 S3.del_Key := String.append "uploads/" (template fileKey) |}
          else ret tt) ;;;
         Pg.delete env id ;;;
         ret (res_json (JMessage "Todo deleted successfully"))
     end)
    (fun error => res_status_json 500 (JError "Failed to delete todo")).

(** The error-handling middleware. *)
Definition error_middleware (error : JsError) : Response :=
  match class error with
  | MulterError =>
      if String.eqb (code error) "LIMIT_FILE_SIZE"
      then res_status_json 400 (JError "File too large")
      else res_status_json 500 (JError (message error))
  | _ => res_status_json 500 (JError (message error))
  end.

(** The whole route [POST /api/todos]: [upload.single('file')], then the
    handler, or the error middleware when the upload is refused. *)
Definition post_todos (env : Env) (form : Multer.Form) : World -> Response * World :=
  fun w =>
    match Multer.single upload form with
    | inl err => (error_middleware err, w)
    | inr req => create env req w
    end.

End ServerJs.

(** ** The variant that checks its configuration ([part_000]) *)

Module Part000.

(** [s3] and [spacesConfigured] are set together, as are [pool] and
    [dbConfigured]; the constructors only record their options. *)
Definition spacesConfigured (env : Env) : bool :=
  Js.truthy (SPACES_ENDPOINT (process_env env)) &&
  Js.truthy (SPACES_KEY (process_env env)) &&
  Js.truthy (SPACES_SECRET (process_env env)).

Definition dbConfigured (env : Env) : bool :=
  Js.truthy (DATABASE_URL (process_env env)).

(** [pool.query(...)], [pool] being [null] when not configured. *)
Definition pool_query {A} (env : Env) (q : M A) : M A :=
  if dbConfigured env then q
  else throw (new_TypeError "Cannot read properties of null (reading 'query')").

(** [s3.deleteObject(...)], [s3] being [null] when not configured. *)
Definition s3_deleteObject_call (env : Env) (p : S3.delete_params) : M unit :=
  if spacesConfigured env then s3_deleteObject_promise env p
  else throw (new_TypeError "Cannot read properties of null (reading 'deleteObject')").

Definition allowedTypes : list string :=
  ["jpeg"; "jpg"; "png"; "gif"; "pdf"; "txt"; "doc"; "docx"].

Definition fileFilter (file : Multer.File) : JsError + bool :=
  let extname :=
    Js.regex_alt_test allowedTypes
      (Js.toLowerCase (Path.extname (Multer.originalname file))) in
  let mimetype := Js.regex_alt_test allowedTypes (Multer.mimetype file) in
  if mimetype && extname then inr true
  else inl (new_Error "Only images, PDFs, documents and text files are allowed").

Definition upload : Multer.Options :=
  {| Multer.storage := Multer.memoryStorage;
     Multer.limits_fileSize := 5 * 1024 * 1024;
     Multer.fileFilter := fileFilter |}.

Definition not_configured : Response :=
  res_status_json 503
    (JError "Database not configured. Please set DATABASE_URL environment variable.").

(** [app.post('/api/todos')]: the title is checked first, and a failed
    upload is logged and the todo created without the file. *)
Definition create (env : Env) (req : Multer.Form) : World -> Response * World :=
  fun w =>
    if negb (dbConfigured env) then (not_configured, w)
    else
      try_respond
        (let title := Multer.form_title req in
         let description := Multer.form_description req in
         if negb (Js.truthy title)
         then ret (res_status_json 400 (JError "Title is required"))
         else
           attachment <-
             match Multer.form_file req with
             | Some file =>
                 if spacesConfigured env then
                   try_catch
                     (let uniqueFileName :=
                        String.append (Js.string_of_Z (Date_now env))
                          (String.append "-" (Multer.originalname file)) in
                      let uploadParams :=
                        {| S3.Bucket := SPACES_BUCKET (process_env env);
                           S3.Key := String.append "uploads/" uniqueFileName;
                           S3.Body := Multer.buffer file;
                           S3.ContentType := Multer.mimetype file;
                           S3.ACL := "public-read" |} in
                      uploadResult <- s3_upload_promise env uploadParams ;;
                      ret (Some uploadResult, Some (Multer.originalname file)))
                     (fun uploadError => ret (@None string, @None string))
                 else ret (@None string, @None string)
             | None => ret (@None string, @None string)
             end ;;
           result <-
             pool_query env
               (Pg.insert env title description (fst attachment) (snd attachment)) ;;
           ret (res_status_json 201 (rows0 result)))
        (fun error =>
           res_status_json 500
             (JError (String.append "Failed to create todo: " (message error))))
        w.

(** [app.delete('/api/todos/:id')]: a failed deletion of the file is
    logged and the row deleted all the same. *)
Definition delete (env : Env) (id : Z) : World -> Response * World :=
  try_respond
    (todoResult <- pool_query env (Pg.select_by_id env id) ;;
     match todoResult with
     | [] => ret (res_status_json 404 (JError "Todo not found"))
     | todo :: _ =>
         (if Js.truthy (Todo.file_url todo) then
            let fileKey :=
              Js.join "/"
                (Js.slice_last 2 (Js.split "/" (template (Todo.file_url todo)))) in
            try_catch
              (s3_deleteObject_call env
                 {| S3.del_Bucket := DO_SPACES_BUCKET (process_env env);
                    S3.del_Key := fileKey |})
              (fun deleteError => ret tt)
          else ret tt) ;;;
         pool_query env (Pg.delete env id) ;;;
         ret (res_json (JMessage "Todo deleted successfully"))
     end)
    (fun err => res_status_json 500 (JError "Failed to delete todo")).

Definition error_middleware (error : JsError) : Response :=
  match class error with
  | MulterError =>
      if String.eqb (code error) "LIMIT_FILE_SIZE"
      then res_status_json 400 (JError "File too large")
      else res_status_json 500 (JError "Internal server error")
  | _ => res_status_json 500 (JError "Internal server error")
  end.

Definition post_todos (env : Env) (form : Multer.Form) : World -> Response * World :=
  fun w =>
    match Multer.single upload form with
    | inl err => (error_middleware err, w)
    | inr req => create env req w
    end.

(** [app.get('/api/todos')]: refuses to run without a database. *)
Definition get_todos (env : Env) : World -> Response * World :=
  fun w =>
    if negb (dbConfigured env) then (not_configured, w)
    else
      try_respond
        (result <- pool_query env (Pg.select_all env) ;;
         ret (res_json (JTodos result)))
        (fun error => res_status_json 500 (JError "Failed to fetch todos"))
        w.

(** [app.put('/api/todos/:id')]: no check of the configuration here, the
    query is sent to whatever [pool] is. *)
Definition update (env : Env) (req : UpdateRequest) : World -> Response * World :=
  try_respond
    (result <-
       pool_query env
         (Pg.update env (body_title req) (body_description req) (body_completed req)
            (params_id req)) ;;
     match result with
     | [] => ret (res_status_json 404 (JError "Todo not found"))
     | _ => ret (res_json (rows0 result))
     end)
    (fun err => res_status_json 500 (JError "Failed to update todo")).

End Part000.

(** ** The variant that stores the derived name ([part_001]) *)

Module Part001.

(** [app.post('/api/todos')]: as in [server.js], but the derived name has
    a name of its own, [uploadFileName], and it is that name the row
    gets. *)
Definition create (env : Env) (req : Multer.Form) : World -> Response * World :=
  try_respond
    (let title := Multer.form_title req in
     let description := Multer.form_description req in
     attachment <-
       match Multer.form_file req with
       | Some file =>
           let uploadFileName :=
             String.append (Js.string_of_Z (Date_now env))
               (String.append "-" (Multer.originalname file)) in
           let uploadParams :=
             {| S3.Bucket := SPACES_BUCKET (process_env env);
                S3.Key := String.append "uploads/" uploadFileName;
                S3.Body := Multer.buffer file;
                S3.ContentType := Multer.mimetype file;
                S3.ACL := "public-read" |} in
           uploadResult <- s3_upload_promise env uploadParams ;;
           ret (Some uploadResult, Some uploadFileName)
       | None => ret (@None string, @None string)
       end ;;
     result <- Pg.insert env title description (fst attachment) (snd attachment) ;;
     ret (res_status_json 201 (rows0 result)))
    (fun error => res_status_json 500 (JError "Failed to create todo")).

End Part001.

(** ** The temporary files of the upload directory *)

Module Fs.

Definition ENOENT : JsError :=
  {| class := PlainError; code := "ENOENT"; message := "no such file or directory" |}.

(** [fs.readFileSync(path)] *)
Definition readFileSync (path : string) (fs : gmap string string) : JsError + string :=
  match fs !! path with
  | Some content => inr content
  | None => inl ENOENT
  end.

(** [fs.existsSync(path)] *)
Definition existsSync (path : string) (fs : gmap string string) : bool :=
  match fs !! path with
  | Some _ => true
  | None => false
  end.

(** [fs.unlinkSync(path)] *)
Definition unlinkSync (path : string) (fs : gmap string string)
  : JsError + gmap string string :=
  match fs !! path with
  | Some _ => inr (delete path fs)
  | None => inl ENOENT
  end.

End Fs.

(** ** The variant with temporary files ([part_002]) *)

Module Part002.

(** [req.file] under [dest: 'uploads/']: the file and where Multer put
    it. *)
Record DiskFile := {
  file : Multer.File;
  path : string
}.

(** The [catch] block of [uploadToSpaces]: remove the temporary file if it
    is still there, then throw the error again. *)
Definition cleanup_and_rethrow (f : DiskFile) (error : JsError)
    (fs : gmap string string) : JsError * gmap string string :=
  if Fs.existsSync (path f) fs then
    match Fs.unlinkSync (path f) fs with
    | inr fs' => (error, fs')
    | inl unlinkError => (unlinkError, fs)
    end
  else (error, fs).

(** [uploadToSpaces(file)]: reads the temporary file (outside the [try]),
    uploads it under [todos/], removes the temporary file, and returns
    the location and the key. *)
Definition uploadToSpaces (env : Env) (f : DiskFile) (fs : gmap string string)
    (w : World) : Outcome (string * string) * gmap string string * World :=
  let fileKey :=
    String.append "todos/"
      (String.append (Js.string_of_Z (Date_now env))
         (String.append "-" (Multer.originalname (file f)))) in
  match Fs.readFileSync (path f) fs with
  | inl error => (Throw error, fs, w)
  | inr fileContent =>
      let params :=
        {| S3.Bucket := DO_SPACES_BUCKET (process_env env);
           S3.Key := fileKey;
           S3.Body := Some fileContent;
           S3.ContentType := Multer.mimetype (file f);
           S3.ACL := "public-read" |} in
      match s3_upload_promise env params w with
      | (Return data, w') =>
          match Fs.unlinkSync (path f) fs with
          | inr fs' => (Return (data, fileKey), fs', w')
          | inl error =>
              let (error', fs') := cleanup_and_rethrow f error fs in
              (Throw error', fs', w')
          end
      | (Throw error, w') =>
          let (error', fs') := cleanup_and_rethrow f error fs in
          (Throw error', fs', w')
      end
  end.

Definition allowedTypes : list string :=
  ["jpeg"; "jpg"; "png"; "gif"; "pdf"; "doc"; "docx"].

Definition fileFilter (file : Multer.File) : JsError + bool :=
  let extname :=
    Js.regex_alt_test allowedTypes
      (Js.toLowerCase (Path.extname (Multer.originalname file))) in
  let mimetype := Js.regex_alt_test allowedTypes (Multer.mimetype file) in
  if mimetype && extname then inr true
  else inl (new_Error "Only images and documents are allowed").

(** [dest: 'uploads/']: the files go to disk, [req.file.buffer] is
    [undefined]. *)
Definition upload : Multer.Options :=
  {| Multer.storage := Multer.diskStorage;
     Multer.limits_fileSize := 10 * 1024 * 1024;
     Multer.fileFilter := fileFilter |}.

(** [app.post('/api/todos')]: the title is checked; a failed upload fails
    the request. *)
Definition create (env : Env) (req : Multer.Form) : World -> Response * World :=
  try_respond
    (let title := Multer.form_title req in
     let description := Multer.form_description req in
     if negb (Js.truthy title)
     then ret (res_status_json 400 (JError "Title is required"))
     else
       attachment <-
         match Multer.form_file req with
         | Some file =>
             let uniqueFileName :=
               String.append (Js.string_of_Z (Date_now env))
                 (String.append "-" (Multer.originalname file)) in
             let uploadParams :=
               {| S3.Bucket := SPACES_BUCKET (process_env env);
                  S3.Key := String.append "uploads/" uniqueFileName;
                  S3.Body := Multer.buffer file;
                  S3.ContentType := Multer.mimetype file;
                  S3.ACL := "public-read" |} in
             uploadResult <- s3_upload_promise env uploadParams ;;
             ret (Some uploadResult, Some (Multer.originalname file))
         | None => ret (@None string, @None string)
         end ;;
       result <- Pg.insert env title description (fst attachment) (snd attachment) ;;
       ret (res_status_json 201 (rows0 result)))
    (fun error => res_status_json 500 (JError "Failed to create todo")).

(** [app.delete('/api/todos/:id')] *)
Definition delete (env : Env) (id : Z) : World -> Response * World :=
  try_respond
    (todoResult <- Pg.select_by_id env id ;;
     match todoResult with
     | [] => ret (res_status_json 404 (JError "Todo not found"))
     | todo :: _ =>
         (if Js.truthy (Todo.file_url todo) then
            let fileKey :=
              Js.join "/"
                (Js.slice_last 2 (Js.split "/" (template (Todo.file_url todo)))) in
            try_catch
              (s3_deleteObject_promise env
                 {| S3.del_Bucket := DO_SPACES_BUCKET (process_env env);
                    S3.del_Key := fileKey |})
              (fun deleteError => ret tt)
          else ret tt) ;;;
         Pg.delete env id ;;;
         ret (res_json (JMessage "Todo deleted successfully"))
     end)
    (fun err => res_status_json 500 (JError "Failed to delete todo")).

Definition error_middleware (error : JsError) : Response :=
  match class error with
  | MulterError =>
      if String.eqb (code error) "LIMIT_FILE_SIZE"
      then res_status_json 400 (JError "File too large")
      else res_status_json 500 (JError "Internal server error")
  | _ => res_status_json 500 (JError "Internal server error")
  end.

Definition post_todos (env : Env) (form : Multer.Form) : World -> Response * World :=
  fun w =>
    match Multer.single upload form with
    | inl err => (error_middleware err, w)
    | inr req => create env req w
    end.

End Part002.

(** ** The invariants of the data model, as checks on a table *)

(** [file_url] and [file_name] are both present or both absent. *)
Definition paired (r : Todo.t) : bool :=
  match Todo.file_url r, Todo.file_name r with
  | Some _, Some _ => true
  | None, None => true
  | _, _ => false
  end.

(** The title is not the empty string. *)
Definition titled (r : Todo.t) : bool := negb (String.eqb (Todo.title r) "").

Definition invariant_paired (w : World) : bool := forallb paired (todos w).

Definition invariant_titled (w : World) : bool := forallb titled (todos w).

(** The sequence is ahead of every [id] in the table and has values left:
    the next [INSERT] gets a fresh key. *)
Definition fresh_id (w : World) : bool :=
  Pg.in_sequence (todos_id_seq w) &&
  negb (existsb (Pg.has_id (todos_id_seq w)) (todos w)).

(** A value of at most [n] characters, or none. *)
Definition fits (n : nat) (v : option string) : Prop :=
  match v with
  | Some s => (String.length s <= n)%nat
  | None => True
  end.

(** A title that fits [VARCHAR(255)], or none. *)
Definition title_fits (t : option string) : Prop := fits 255 t.

(** ** Sample requests *)

Module Sample.

Definition vars : ProcessEnv :=
  {| DATABASE_URL := Some "postgresql://doadmin@db:25060/defaultdb";
     SPACES_ENDPOINT := Some "sgp1.digitaloceanspaces.com";
     SPACES_KEY := Some "KEY";
     SPACES_SECRET := Some "SECRET";
     SPACES_BUCKET := Some "workshop";
     DO_SPACES_BUCKET := None |}.

Definition location (p : S3.upload_params) : string :=
  String.append "https://workshop.sgp1.digitaloceanspaces.com/" (S3.Key p).

(** Database and bucket both answer. *)
Definition env : Env :=
  {| process_env := vars;
     Date_now := 1700000000000;
     CURRENT_TIMESTAMP := 1700000000;
     pg_fault := fun _ => false;
     s3_upload := fun p => Some (location p);
     s3_deleteObject := fun _ => true |}.

(** The bucket refuses every request. *)
Definition env_bucket_down : Env :=
  {| process_env := vars;
     Date_now := 1700000000000;
     CURRENT_TIMESTAMP := 1700000000;
     pg_fault := fun _ => false;
     s3_upload := fun _ => None;
     s3_deleteObject := fun _ => false |}.

Definition later (e : Env) : Env :=
  {| process_env := process_env e;
     Date_now := Date_now e + 60000;
     CURRENT_TIMESTAMP := CURRENT_TIMESTAMP e + 60;
     pg_fault := pg_fault e;
     s3_upload := s3_upload e;
     s3_deleteObject := s3_deleteObject e |}.

Definition empty : World := {| todos := []; todos_id_seq := 1; s3_calls := [] |}.

Definition photo : Multer.File :=
  {| Multer.originalname := "cat.png";
     Multer.mimetype := "image/png";
     Multer.size := 2048;
     Multer.buffer := Some "PNG" |}.

Definition program : Multer.File :=
  {| Multer.originalname := "setup.exe";
     Multer.mimetype := "application/x-msdownload";
     Multer.size := 2048;
     Multer.buffer := Some "MZ" |}.

Definition huge_photo : Multer.File :=
  {| Multer.originalname := "cat.png";
     Multer.mimetype := "image/png";
     Multer.size := 5 * 1024 * 1024 + 1;
     Multer.buffer := Some "PNG" |}.

Definition limit_photo : Multer.File :=
  {| Multer.originalname := "cat.png";
     Multer.mimetype := "image/png";
     Multer.size := 5 * 1024 * 1024;
     Multer.buffer := Some "PNG" |}.

Definition form (t : option string) (f : option Multer.File) : Multer.Form :=
  {| Multer.form_title := t;
     Multer.form_description := Some "2%";
     Multer.form_file := f |}.

Definition milk : Todo.t :=
  {| Todo.id := 1;
     Todo.title := "Buy milk";
     Todo.description := Some "2%";
     Todo.completed := Some false;
     Todo.file_url := None;
     Todo.file_name := None;
     Todo.created_at := 1700000000;
     Todo.updated_at := 1700000000 |}.

Definition with_photo : Todo.t :=
  {| Todo.id := 2;
     Todo.title := "Feed the cat";
     Todo.description := None;
     Todo.completed := Some false;
     Todo.file_url :=
       Some "https://workshop.sgp1.digitaloceanspaces.com/uploads/1700000000000-cat.png";
     Todo.file_name := Some "cat.png";
     Todo.created_at := 1700000060;
     Todo.updated_at := 1700000060 |}.

Definition two_todos : World :=
  {| todos := [milk; with_photo]; todos_id_seq := 3; s3_calls := [] |}.

Definition put (i : Z) (t : option string) : UpdateRequest :=
  {| params_id := i;
     body_title := t;
     body_description := Some "2% organic";
     body_completed := Some true |}.

End Sample.

(** Every create handler, in terms of the [INSERT] it ends with: the
    table is as it was, or it has one more row, made by the insert from a
    title and a pair of attachment values that are both there or both
    missing. *)
Definition appends_row (env : Env) (title : option string) (w : World)
    (out : Response * World) : Prop :=
  todos (snd out) = todos w \/
  exists s d u n c_u c_n,
    Pg.varchar_param 255 title = Some (Some s) /\
    (u = None <-> n = None) /\
    Pg.varchar_param 500 u = Some c_u /\
    Pg.varchar_param 255 n = Some c_n /\
    todos (snd out)
    = (todos w ++ [Pg.new_row env (todos_id_seq w) s d c_u c_n])%list.

(** The rows a [DELETE] of id [i] leaves. *)
Definition others (i : Z) (l : list Todo.t) : list Todo.t :=
  List.filter (fun r => negb (Pg.has_id i r)) l.

(** A run of create requests, each with its own surroundings, oldest
    first: the responses and the world they leave. *)
Fixpoint post_all (posts : list (Env * Multer.Form)) (w : World)
  : list Response * World :=
  match posts with
  | [] => ([], w)
  | (env, form) :: rest =>
      let (resp, w1) := ServerJs.post_todos env form w in
      let (resps, w2) := post_all rest w1 in
      (resp :: resps, w2)
  end.

(** ** More sample values *)

Module Fixture.

(** 300 times the letter a. *)
Definition long_title : string := string_of_list_ascii (List.repeat "a"%char 300).


Definition notes : Multer.File :=
  {| Multer.originalname := "notes.txt";
     Multer.mimetype := "text/plain";
     Multer.size := 120;
     Multer.buffer := Some "milk, bread" |}.

Definition makefile : Multer.File :=
  {| Multer.originalname := "Makefile";
     Multer.mimetype := "image/png";
     Multer.size := 120;
     Multer.buffer := Some "all:" |}.


Definition with_vars (v : ProcessEnv) (e : Env) : Env :=
  {| process_env := v;
     Date_now := Date_now e;
     CURRENT_TIMESTAMP := CURRENT_TIMESTAMP e;
     pg_fault := pg_fault e;
     s3_upload := s3_upload e;
     s3_deleteObject := s3_deleteObject e |}.

(** A database, but no bucket. *)
Definition db_only_vars : ProcessEnv :=
  {| DATABASE_URL := Some "postgresql://doadmin@db:25060/defaultdb";
     SPACES_ENDPOINT := None;
     SPACES_KEY := None;
     SPACES_SECRET := None;
     SPACES_BUCKET := None;
     DO_SPACES_BUCKET := None |}.

(** The [DELETE] statement is lost, everything else gets through. *)
Definition env_delete_lost : Env :=
  {| process_env := Sample.vars;
     Date_now := 1700000000000;
     CURRENT_TIMESTAMP := 1700000000;
     pg_fault := fun s => match s with DELETE => true | _ => false end;
     s3_upload := fun p => Some (Sample.location p);
     s3_deleteObject := fun _ => true |}.

End Fixture.

(** No character of [s] is [c]. *)
Definition char_free (c : ascii) (s : string) : bool :=
  forallb (fun a => negb (Ascii.eqb a c)) (list_ascii_of_string s).

(** The key of the table: no two rows share an [id], and the sequence is
    ahead of all of them. *)
Definition well_keyed (w : World) : Prop :=
  NoDup (List.map Todo.id (todos w)) /\
  Forall (fun r => Todo.id r < todos_id_seq w) (todos w).

(** ** The four routes of [server.js] on todos, as one service *)

Module Api.

Inductive request :=
| GetTodos (env : Env)
| PostTodos (env : Env) (form : Multer.Form)
| PutTodo (env : Env) (req : UpdateRequest)
| DeleteTodo (env : Env) (id : Z).

Definition handle (r : request) (w : World) : Response * World :=
  match r with
  | GetTodos env => ServerJs.get_todos env w
  | PostTodos env form => ServerJs.post_todos env form w
  | PutTodo env req => ServerJs.update env req w
  | DeleteTodo env id => ServerJs.delete env id w
  end.

(** The world after a run of requests, served one after the other. *)
Fixpoint run (rs : list request) (w : World) : World :=
  match rs with
  | [] => w
  | r :: rest => run rest (snd (handle r w))
  end.

End Api.

(** * Properties *)

Example extname_png : Path.extname "photo.PNG" = ".PNG".
Proof. reflexivity. Qed.

Example extname_dotfile : Path.extname ".bashrc" = "".
Proof. reflexivity. Qed.

Example extname_last : Path.extname "dir.d/archive.tar.gz" = ".gz".
Proof. reflexivity. Qed.

Example extname_none : Path.extname "a.b/readme" = "".
Proof. reflexivity. Qed.

Example extname_dotdot : Path.extname ".." = "".
Proof. reflexivity. Qed.

Example split_url :
  Js.split "/" "https://b.x.com/uploads/17-a.png"
  = ["https:"; ""; "b.x.com"; "uploads"; "17-a.png"].
Proof. reflexivity. Qed.

Example split_empty : Js.split "/" "" = [""].
Proof. reflexivity. Qed.

Example slice_join :
  Js.join "/" (Js.slice_last 2 (Js.split "/" "https://b.x.com/uploads/17-a.png"))
  = "uploads/17-a.png".
Proof. reflexivity. Qed.

Example template_number : Js.string_of_Z 1700000000000 = "1700000000000".
Proof. reflexivity. Qed.

Example test_text_plain :
  Js.regex_alt_test ["jpeg"; "jpg"; "png"; "gif"; "pdf"; "txt"] "text/plain" = false.
Proof. reflexivity. Qed.

(** ** Fitting values to columns *)

Lemma varchar_fits (n : nat) (s : string) :
  (String.length s <= n)%nat -> Pg.varchar n s = Some s.
Proof.
  intros H. unfold Pg.varchar.
  destruct (Nat.leb_spec (String.length s) n) as [_ | Hgt]; [reflexivity | lia].
Qed.

Lemma varchar_param_fits (n : nat) (v : option string) :
  fits n v -> Pg.varchar_param n v = Some v.
Proof.
  destruct v as [s |]; simpl; intros H; [| reflexivity].
  now rewrite varchar_fits.
Qed.

(** ** Matching a row by its id *)

Lemma has_id_true (i : Z) (r : Todo.t) :
  Pg.has_id i r = true <-> Pg.int4 i = true /\ Todo.id r = i.
Proof.
  unfold Pg.has_id. rewrite andb_true_iff, Z.eqb_eq. reflexivity.
Qed.

Lemma has_id_false (i : Z) (r : Todo.t) :
  Pg.int4 i = true -> Pg.has_id i r = false -> Todo.id r <> i.
Proof.
  unfold Pg.has_id. intros ->. simpl. now intros H%Z.eqb_neq.
Qed.

Lemma in_sequence_int4 (i : Z) : Pg.in_sequence i = true -> Pg.int4 i = true.
Proof.
  unfold Pg.in_sequence, Pg.int4, Pg.INT4_MIN, Pg.INT4_MAX.
  rewrite !andb_true_iff, !Z.leb_le. lia.
Qed.

(** A parameter that matched a row is a four-byte integer. *)
Lemma filter_has_id_int4 (i : Z) (l : list Todo.t) (r : Todo.t) (rs : list Todo.t) :
  List.filter (Pg.has_id i) l = r :: rs -> Pg.int4 i = true.
Proof.
  intros H.
  assert (Hin : In r (List.filter (Pg.has_id i) l)) by (rewrite H; now left).
  apply filter_In in Hin. destruct Hin as [_ Hid].
  now apply has_id_true in Hid.
Qed.

Lemma existsb_has_id_int4 (i : Z) (l : list Todo.t) :
  existsb (Pg.has_id i) l = true -> Pg.int4 i = true.
Proof.
  intros H. apply existsb_exists in H. destruct H as (r & _ & Hid).
  now apply has_id_true in Hid.
Qed.

Lemma filter_has_id_nil (i : Z) (l : list Todo.t) :
  (forall r, In r l -> Todo.id r <> i) -> List.filter (Pg.has_id i) l = [].
Proof.
  induction l as [| r l IH]; simpl; intros H; [reflexivity |].
  destruct (Pg.has_id i r) eqn:E.
  - exfalso. apply has_id_true in E. apply (H r); [now left | tauto].
  - apply IH. intros r' Hr'. apply H. now right.
Qed.

Lemma filter_has_id_cons (i : Z) (l : list Todo.t) :
  existsb (Pg.has_id i) l = true ->
  exists r rs, List.filter (Pg.has_id i) l = r :: rs.
Proof.
  induction l as [| r l IH]; simpl; [discriminate |].
  destruct (Pg.has_id i r); [intros _; eauto |].
  simpl. exact IH.
Qed.

(** ** Update *)

(** What the [UPDATE] statement leaves of the table, position by
    position. *)
Lemma nth_error_update_rows (set : Todo.t -> Todo.t) (i : Z) (l : list Todo.t)
    (k : nat) (r : Todo.t) :
  nth_error l k = Some r ->
  nth_error (List.map (fun r => if Pg.has_id i r then set r else r) l) k
  = Some (if Pg.has_id i r then set r else r).
Proof.
  intros H. rewrite nth_error_map, H. reflexivity.
Qed.

(** The claim of C7 fails on an id that is no four-byte integer, and on
    a title that does not fit its column: no row has the id, the
    statement reaches the database, and the answer is 500, not 404. *)
Lemma C7_refused_statement_answers_500 :
  let wide := Sample.put 2147483648 (Some "Buy bread") in
  let long := Sample.put 7 (Some Fixture.long_title) in
  (forall r, In r (todos Sample.two_todos) -> Todo.id r <> params_id wide) /\
  (forall r, In r (todos Sample.two_todos) -> Todo.id r <> params_id long) /\
  pg_fault Sample.env UPDATE = false /\
  ServerJs.update Sample.env wide Sample.two_todos
  = (res_status_json 500 (JError "Failed to update todo"), Sample.two_todos) /\
  ServerJs.update Sample.env long Sample.two_todos
  = (res_status_json 500 (JError "Failed to update todo"), Sample.two_todos) /\
  status (fst (ServerJs.update Sample.env wide Sample.two_todos)) <> 404 /\
  status (fst (ServerJs.update Sample.env long Sample.two_todos)) <> 404.
Proof.
  cbv zeta. repeat split; try discriminate;
    simpl; intros r [<- | [<- | []]]; simpl; lia.
Qed.

(** C7, amended. An update whose id matches no row creates no row and
    leaves the table, the sequence and the bucket as they were, whatever
    the answer.  The answer is 404 or 500: 404 exactly when the database
    accepts the statement, that is when the statement reaches it, the id
    is a four-byte integer and the title is absent or fits the title
    column (in particular when it has at most 255 characters); 500 when
    the database refuses the statement. *)
Theorem C7_update_unknown_id (env : Env) (req : UpdateRequest) (w : World) :
  (forall r, In r (todos w) -> Todo.id r <> params_id req) ->
  snd (ServerJs.update env req w) = w /\
  (fst (ServerJs.update env req w) = res_status_json 404 (JError "Todo not found") \/
   fst (ServerJs.update env req w)
   = res_status_json 500 (JError "Failed to update todo")) /\
  (status (fst (ServerJs.update env req w)) = 404 <->
   pg_fault env UPDATE = false /\
   Pg.int4 (params_id req) = true /\
   Pg.varchar_param 255 (body_title req) <> None) /\
  (pg_fault env UPDATE = false ->
   Pg.int4 (params_id req) = true ->
   title_fits (body_title req) ->
   ServerJs.update env req w = (res_status_json 404 (JError "Todo not found"), w)).
Proof.
  intros Hnone.
  unfold ServerJs.update, try_respond, bind, Pg.update.
  rewrite (filter_has_id_nil _ _ Hnone).
  destruct (pg_fault env UPDATE).
  { repeat split; auto; try discriminate; intros (H & _); discriminate. }
  destruct (Pg.int4 (params_id req)).
  2: { repeat split; auto; try discriminate; intros (_ & H & _); discriminate. }
  destruct (Pg.varchar_param 255 (body_title req)) as [c |] eqn:Hv.
  - repeat split; auto; discriminate.
  - repeat split; auto; try discriminate.
    + intros (_ & _ & H). now contradiction H.
    + intros _ _ Hfit. rewrite (varchar_param_fits _ _ Hfit) in Hv. discriminate.
Qed.

Lemma C7_update_unknown_id_witness :
  (forall r, In r (todos Sample.two_todos) -> Todo.id r <> 7) /\
  snd (ServerJs.update Sample.env (Sample.put 7 (Some "Buy bread")) Sample.two_todos)
  = Sample.two_todos /\
  ServerJs.update Sample.env (Sample.put 7 (Some "Buy bread")) Sample.two_todos
  = (res_status_json 404 (JError "Todo not found"), Sample.two_todos).
Proof.
  assert (H : forall r, In r (todos Sample.two_todos) -> Todo.id r <> 7).
  { simpl. intros r [<- | [<- | []]]; simpl; lia. }
  split; [exact H |].
  destruct (C7_update_unknown_id Sample.env (Sample.put 7 (Some "Buy bread"))
              Sample.two_todos H) as (Hw & _ & _ & H404).
  split; [exact Hw |].
  apply H404; [reflexivity | reflexivity | simpl; lia].
Defined.

(** The three ways [ServerJs.update] can end. *)
Lemma update_cases (env : Env) (req : UpdateRequest) (w : World) :
  (ServerJs.update env req w
     = (res_status_json 500 (JError "Failed to update todo"), w)) \/
  (ServerJs.update env req w
     = (res_status_json 404 (JError "Todo not found"), w) /\
   List.filter (Pg.has_id (params_id req)) (todos w) = []) \/
  (exists t r rs,
     Pg.varchar_param 255 (body_title req) = Some (Some t) /\
     List.filter (Pg.has_id (params_id req)) (todos w) = r :: rs /\
     let set := Pg.set_columns env t (body_description req) (body_completed req) in
     ServerJs.update env req w
     = (res_json (JTodo (set r)),
        with_todos
          (List.map (fun r => if Pg.has_id (params_id req) r then set r else r)
             (todos w)) w)).
Proof.
  unfold ServerJs.update, try_respond, bind, Pg.update.
  destruct (pg_fault env UPDATE); [now left |].
  destruct (Pg.int4 (params_id req)); [| now left].
  destruct (Pg.varchar_param 255 (body_title req)) as [c |]; [| now left].
  destruct (List.filter (Pg.has_id (params_id req)) (todos w)) as [| r rs] eqn:Hm.
  - right; left. split; reflexivity.
  - destruct c as [t |]; [| now left].
    right; right. exists t, r, rs. repeat split; reflexivity.
Qed.

(** C8. A successful update changes nothing but [title], [description],
    [completed] and [updated_at] of the rows with the given id: every row
    keeps its place, its [id], [file_url], [file_name] and [created_at];
    rows with another id are untouched; [updated_at] of the updated row is
    the current time; the sequence and the bucket are not touched. *)
Theorem C8_update_frame (env : Env) (req : UpdateRequest) (w : World) :
  status (fst (ServerJs.update env req w)) = 200 ->
  let w' := snd (ServerJs.update env req w) in
  todos_id_seq w' = todos_id_seq w /\
  s3_calls w' = s3_calls w /\
  length (todos w') = length (todos w) /\
  forall (k : nat) (r : Todo.t),
    nth_error (todos w) k = Some r ->
    exists r',
      nth_error (todos w') k = Some r' /\
      Todo.id r' = Todo.id r /\
      Todo.file_url r' = Todo.file_url r /\
      Todo.file_name r' = Todo.file_name r /\
      Todo.created_at r' = Todo.created_at r /\
      (Todo.id r <> params_id req -> r' = r) /\
      (Todo.id r = params_id req -> Todo.updated_at r' = CURRENT_TIMESTAMP env).
Proof.
  destruct (update_cases env req w)
    as [E | [[E _] | (t & r0 & rs & _ & Hm & E)]];
    cbv zeta in E; rewrite E; simpl; try discriminate.
  pose proof (filter_has_id_int4 _ _ _ _ Hm) as Hint.
  intros _. repeat split.
  - now rewrite length_map.
  - intros k r Hk.
    eexists. split; [apply nth_error_update_rows; exact Hk |].
    destruct (Pg.has_id (params_id req) r) eqn:Hh.
    + apply has_id_true in Hh. destruct Hh as [_ Hh]. simpl.
      repeat split; try reflexivity; intros; congruence.
    + apply (has_id_false _ _ Hint) in Hh.
      repeat split; try reflexivity; intros; congruence.
Qed.

Lemma C8_update_frame_witness :
  status (fst (ServerJs.update Sample.env (Sample.put 2 (Some "Feed both cats"))
                 Sample.two_todos)) = 200 /\
  forall (k : nat) (r : Todo.t),
    nth_error (todos Sample.two_todos) k = Some r ->
    exists r',
      nth_error
        (todos (snd (ServerJs.update Sample.env (Sample.put 2 (Some "Feed both cats"))
                       Sample.two_todos))) k = Some r' /\
      Todo.id r' = Todo.id r /\
      Todo.file_url r' = Todo.file_url r /\
      Todo.file_name r' = Todo.file_name r /\
      Todo.created_at r' = Todo.created_at r /\
      (Todo.id r <> 2 -> r' = r) /\
      (Todo.id r = 2 -> Todo.updated_at r' = 1700000000).
Proof.
  split; [reflexivity |].
  apply (C8_update_frame Sample.env (Sample.put 2 (Some "Feed both cats"))
           Sample.two_todos).
  reflexivity.
Defined.

(** C10. On an existing id the update writes the three body fields as they
    come: a title that fits its column is stored, and [description] and
    [completed] are stored even when they were left out of the body, as
    [NULL], whatever the row held before.  A body without a title does not
    keep the old one: the statement is refused ([NOT NULL]), the answer is
    500 and nothing is written. *)
Theorem C10_update_overwrites (env : Env) (req : UpdateRequest) (w : World) :
  pg_fault env UPDATE = false ->
  existsb (Pg.has_id (params_id req)) (todos w) = true ->
  match body_title req with
  | None =>
      ServerJs.update env req w
      = (res_status_json 500 (JError "Failed to update todo"), w)
  | Some t =>
      (String.length t <= 255)%nat ->
      let (resp, w') := ServerJs.update env req w in
      status resp = 200 /\
      (exists r, In r (todos w') /\ Todo.id r = params_id req) /\
      forall r, In r (todos w') -> Todo.id r = params_id req ->
        Todo.title r = t /\
        Todo.description r = body_description req /\
        Todo.completed r = body_completed req
  end.
Proof.
  intros Hup Hex.
  destruct (filter_has_id_cons _ _ Hex) as (r0 & rs & Hm).
  pose proof (existsb_has_id_int4 _ _ Hex) as Hint.
  unfold ServerJs.update, try_respond, bind, Pg.update.
  rewrite Hup, Hint.
  destruct (body_title req) as [t |]; simpl.
  - intros Hlen. rewrite (varchar_fits _ _ Hlen), Hm. simpl.
    split; [reflexivity |]. split.
    + assert (Hin : In r0 (List.filter (Pg.has_id (params_id req)) (todos w)))
        by (rewrite Hm; now left).
      apply filter_In in Hin. destruct Hin as [Hin Hid].
      exists (Pg.set_columns env t (body_description req) (body_completed req) r0).
      split.
      * apply in_map_iff. exists r0. rewrite Hid. now split.
      * simpl. apply has_id_true in Hid. tauto.
    + intros r Hin Hid. apply in_map_iff in Hin.
      destruct Hin as (r1 & Hr & _).
      destruct (Pg.has_id (params_id req) r1) eqn:Hh; subst r.
      * simpl. repeat split.
      * apply (has_id_false _ _ Hint) in Hh. contradiction.
  - rewrite Hm. reflexivity.
Qed.

Lemma C10_update_overwrites_witness :
  ServerJs.update Sample.env (Sample.put 1 None) Sample.two_todos
  = (res_status_json 500 (JError "Failed to update todo"), Sample.two_todos) /\
  let (resp, w') :=
    ServerJs.update Sample.env (Sample.put 1 (Some "Buy oat milk")) Sample.two_todos in
  status resp = 200 /\
  (exists r, In r (todos w') /\ Todo.id r = 1) /\
  forall r, In r (todos w') -> Todo.id r = 1 ->
    Todo.title r = "Buy oat milk" /\
    Todo.description r = Some "2% organic" /\
    Todo.completed r = Some true.
Proof.
  split.
  - apply (C10_update_overwrites Sample.env (Sample.put 1 None) Sample.two_todos);
      reflexivity.
  - apply (C10_update_overwrites Sample.env (Sample.put 1 (Some "Buy oat milk"))
             Sample.two_todos eq_refl eq_refl).
    simpl. lia.
Defined.

(** An update that leaves [description] and [completed] out of its body
    writes [NULL] over what the row had. *)
Example update_omitted_fields_become_null :
  todos (snd (ServerJs.update (Sample.later Sample.env)
                {| params_id := 1; body_title := Some "Buy milk";
                   body_description := None; body_completed := None |}
                Sample.two_todos))
  = [ {| Todo.id := 1; Todo.title := "Buy milk"; Todo.description := None;
         Todo.completed := None; Todo.file_url := None; Todo.file_name := None;
         Todo.created_at := 1700000000; Todo.updated_at := 1700000060 |};
      Sample.with_photo ].
Proof. reflexivity. Qed.

(** ** List *)

Lemma get_todos_ok (env : Env) (w : World) :
  pg_fault env SELECT_ALL = false ->
  ServerJs.get_todos env w
  = (res_json (JTodos (merge_sort Pg.newest_first (todos w))), w).
Proof.
  intros H. unfold ServerJs.get_todos, try_respond, bind, Pg.select_all.
  now rewrite H.
Qed.

(** ** Create in [server.js] *)

(** The two ways [ServerJs.create] can end: with 500 and the table as it
    was, or, for a request without a file, with 201 and one more row. *)
Lemma create_cases (env : Env) (req : Multer.Form) (w : World) :
  (status (fst (ServerJs.create env req w)) = 500 /\
   json (fst (ServerJs.create env req w)) = JError "Failed to create todo" /\
   todos (snd (ServerJs.create env req w)) = todos w) \/
  (exists row : Todo.t,
     Multer.form_file req = None /\
     ServerJs.create env req w
     = (res_status_json 201 (JTodo row),
        with_todos (todos w ++ [row])%list (with_seq (todos_id_seq w + 1) w)) /\
     Pg.varchar_param 255 (Multer.form_title req) = Some (Some (Todo.title row)) /\
     Todo.file_url row = None /\ Todo.file_name row = None).
Proof.
  unfold ServerJs.create, try_respond, bind.
  destruct (Multer.form_file req) as [file |].
  - left. unfold s3_upload_promise, assign_to_const, throw.
    destruct (s3_upload env _); simpl; repeat split.
  - unfold ret at 1. unfold Pg.insert. simpl.
    destruct (pg_fault env INSERT); [left; repeat split |].
    destruct (Pg.varchar_param 255 (Multer.form_title req)) as [c |];
      [| left; repeat split].
    destruct (Pg.in_sequence (todos_id_seq w)); [| left; repeat split].
    destruct c as [t |]; [| left; repeat split].
    destruct (existsb (Pg.has_id (todos_id_seq w)) (todos w)); [left; repeat split |].
    right. eexists. repeat split.
Qed.

Lemma post_todos_201 (env : Env) (form : Multer.Form) (w : World) :
  status (fst (ServerJs.post_todos env form w)) = 201 ->
  exists row : Todo.t,
    todos (snd (ServerJs.post_todos env form w)) = (todos w ++ [row])%list.
Proof.
  unfold ServerJs.post_todos.
  destruct (Multer.single ServerJs.upload form) as [err | req].
  - unfold ServerJs.error_middleware. simpl.
    destruct (class err); try discriminate.
    destruct (String.eqb (code err) "LIMIT_FILE_SIZE"); discriminate.
  - destruct (create_cases env req w) as [(E & _ & _) | (row & _ & E & _)].
    + intros H. rewrite E in H. discriminate.
    + rewrite E. simpl. eauto.
Qed.

Lemma post_all_all_created (posts : list (Env * Multer.Form)) (w : World) :
  Forall (fun resp => status resp = 201) (fst (post_all posts w)) ->
  length (todos (snd (post_all posts w))) = (length (todos w) + length posts)%nat.
Proof.
  revert w. induction posts as [| [env form] rest IH]; intros w; simpl.
  - intros _. lia.
  - pose proof (post_todos_201 env form w) as H1.
    destruct (ServerJs.post_todos env form w) as [resp w1]. simpl in H1.
    specialize (IH w1).
    destruct (post_all rest w1) as [resps w2]. simpl in *.
    intros Hall. inversion Hall as [| ? ? Hresp Hrest]; subst.
    destruct (H1 Hresp) as [row Hrow].
    rewrite (IH Hrest), Hrow, length_app. simpl. lia.
Qed.

(** In a list sorted by a relation, an earlier item is related to every
    later one. *)
Lemma StronglySorted_nth_error {A : Type} (R : A -> A -> Prop) (l : list A) :
  StronglySorted R l ->
  forall (i j : nat) (a b : A),
    (i < j)%nat -> nth_error l i = Some a -> nth_error l j = Some b -> R a b.
Proof.
  induction 1 as [| x l Hl IH Hx]; intros i j a b Hij Ha Hb.
  - destruct i; discriminate.
  - destruct j as [| j]; [lia |]. destruct i as [| i]; simpl in Ha, Hb.
    + injection Ha as <-. rewrite Forall_forall in Hx. apply Hx.
      apply list_elem_of_In. eapply nth_error_In. exact Hb.
    + apply (IH i j); [lia | exact Ha | exact Hb].
Qed.

(** C9. When the statement reaches the database, the list operation
    answers 200 with all the rows of the table, each once, ordered by
    [created_at] descending: of two items of the answer, the one that
    comes first has a [created_at] at least as large as the other's.  On
    an empty table it answers the empty array; and after N creates that
    each answered 201 on an empty table it answers N items. *)
Theorem C9_list_all_newest_first (env : Env) (w : World) :
  pg_fault env SELECT_ALL = false ->
  exists rows,
    ServerJs.get_todos env w = (res_json (JTodos rows), w) /\
    Permutation rows (todos w) /\
    (forall (i j : nat) (a b : Todo.t),
        (i < j)%nat ->
        nth_error rows i = Some a -> nth_error rows j = Some b ->
        Todo.created_at b <= Todo.created_at a) /\
    (todos w = [] -> rows = []) /\
    (forall posts w0,
        todos w0 = [] ->
        w = snd (post_all posts w0) ->
        Forall (fun resp => status resp = 201) (fst (post_all posts w0)) ->
        length rows = length posts).
Proof.
  intros Hq. exists (merge_sort Pg.newest_first (todos w)).
  split; [now apply get_todos_ok |].
  split; [apply merge_sort_Permutation |].
  split.
  { intros i j a b Hij Ha Hb.
    apply (StronglySorted_nth_error Pg.newest_first
             (merge_sort Pg.newest_first (todos w))
             (StronglySorted_merge_sort Pg.newest_first (todos w)) i j a b Hij Ha Hb). }
  split.
  - intros ->. reflexivity.
  - intros posts w0 H0 -> Hall.
    rewrite (Permutation_length (merge_sort_Permutation Pg.newest_first _)).
    rewrite (post_all_all_created _ _ Hall), H0. reflexivity.
Qed.

Lemma C9_list_all_newest_first_witness :
  let posts :=
    [ (Sample.env, Sample.form (Some "Buy milk") None);
      (Sample.later Sample.env, Sample.form (Some "Feed the cat") None) ] in
  let w := snd (post_all posts Sample.empty) in
  pg_fault Sample.env SELECT_ALL = false /\
  exists rows,
    ServerJs.get_todos Sample.env w = (res_json (JTodos rows), w) /\
    Permutation rows (todos w) /\
    (forall (i j : nat) (a b : Todo.t),
        (i < j)%nat ->
        nth_error rows i = Some a -> nth_error rows j = Some b ->
        Todo.created_at b <= Todo.created_at a) /\
    length rows = 2%nat.
Proof.
  cbv zeta. split; [reflexivity |].
  destruct (C9_list_all_newest_first Sample.env
              (snd (post_all
                      [ (Sample.env, Sample.form (Some "Buy milk") None);
                        (Sample.later Sample.env,
                         Sample.form (Some "Feed the cat") None) ]
                      Sample.empty))
              eq_refl) as (rows & Hget & Hperm & Hord & _ & HN).
  exists rows. split; [exact Hget |]. split; [exact Hperm |]. split; [exact Hord |].
  apply (HN [ (Sample.env, Sample.form (Some "Buy milk") None);
              (Sample.later Sample.env, Sample.form (Some "Feed the cat") None) ]
            Sample.empty eq_refl eq_refl).
  repeat constructor.
Defined.

(** The order is that of [created_at], newest first: the todo created a
    minute later comes before the older one. *)
Example list_two_todos :
  fst (ServerJs.get_todos Sample.env Sample.two_todos)
  = res_json (JTodos [Sample.with_photo; Sample.milk]).
Proof. reflexivity. Qed.

Example list_empty :
  fst (ServerJs.get_todos Sample.env Sample.empty) = res_json (JTodos []).
Proof. reflexivity. Qed.

Example list_after_two_creates :
  let posts := [ (Sample.env, Sample.form (Some "Buy milk") None);
                 (Sample.later Sample.env, Sample.form (Some "Feed the cat") None) ] in
  List.map status (fst (post_all posts Sample.empty)) = [201; 201] /\
  match json (fst (ServerJs.get_todos Sample.env (snd (post_all posts Sample.empty)))) with
  | JTodos rows => List.map Todo.title rows = ["Feed the cat"; "Buy milk"]
  | _ => False
  end.
Proof. split; reflexivity. Qed.

(** ** The [INSERT] statement *)

(** An accepted insert: the statement gets through, the key is fresh and
    the values fit their columns. *)
Lemma insert_ok (env : Env) (t : string) (d u n : option string) (w : World) :
  pg_fault env INSERT = false ->
  fresh_id w = true ->
  (String.length t <= 255)%nat -> fits 500 u -> fits 255 n ->
  Pg.insert env (Some t) d u n w
  = (Return [Pg.new_row env (todos_id_seq w) t d u n],
     with_todos (todos w ++ [Pg.new_row env (todos_id_seq w) t d u n])
       (with_seq (todos_id_seq w + 1) w)).
Proof.
  intros Hq Hfresh Ht Hu Hn. unfold Pg.insert. rewrite Hq.
  rewrite (varchar_param_fits 255 (Some t) Ht), (varchar_param_fits _ _ Hu),
    (varchar_param_fits _ _ Hn).
  unfold fresh_id in Hfresh. apply andb_prop in Hfresh. destruct Hfresh as [Hseq Hex].
  rewrite Hseq.
  apply negb_true_iff in Hex. rewrite Hex. reflexivity.
Qed.

(** Whatever it is given, an insert either throws with the table as it
    was, or appends exactly the row it returns. *)
Lemma insert_cases (env : Env) (t d u n : option string) (w : World) :
  (exists e w1,
     Pg.insert env t d u n w = (Throw e, w1) /\
     todos w1 = todos w /\ s3_calls w1 = s3_calls w) \/
  (exists s c_u c_n,
     Pg.varchar_param 255 t = Some (Some s) /\
     Pg.varchar_param 500 u = Some c_u /\
     Pg.varchar_param 255 n = Some c_n /\
     Pg.insert env t d u n w
     = (Return [Pg.new_row env (todos_id_seq w) s d c_u c_n],
        with_todos (todos w ++ [Pg.new_row env (todos_id_seq w) s d c_u c_n])
          (with_seq (todos_id_seq w + 1) w))).
Proof.
  unfold Pg.insert.
  destruct (pg_fault env INSERT); [left; eauto |].
  destruct (Pg.varchar_param 255 t) as [c_t |]; [| left; eauto].
  destruct (Pg.varchar_param 500 u) as [c_u |]; [| left; eauto].
  destruct (Pg.varchar_param 255 n) as [c_n |]; [| left; eauto].
  destruct (Pg.in_sequence (todos_id_seq w)); [| left; eauto].
  destruct c_t as [s |]; [| left; eauto].
  destruct (existsb (Pg.has_id (todos_id_seq w)) (todos w)); [left; eauto |].
  right. exists s, c_u, c_n. repeat split.
Qed.

Lemma varchar_nonempty (s s' : string) :
  Pg.varchar 255 s = Some s' -> s <> "" -> s' <> "".
Proof.
  unfold Pg.varchar.
  destruct (String.length s <=? 255)%nat; [congruence |].
  destruct (Pg.all_spaces _); [| discriminate].
  intros [= <-] Hs. destruct s as [| a s0]; [congruence |]. simpl. discriminate.
Qed.

Lemma varchar_param_same_shape (n : nat) (v c : option string) :
  Pg.varchar_param n v = Some c -> (v = None <-> c = None).
Proof.
  destruct v as [s |]; simpl.
  - destruct (Pg.varchar n s); intros [= <-]; split; discriminate.
  - intros [= <-]. split; reflexivity.
Qed.

(** ** Create with a file whose upload succeeds *)

(** In [server.js] a create request that carries a file never inserts a
    row and always answers 500, whether the bucket took the file or not. *)
Lemma server_js_create_with_file (env : Env) (req : Multer.Form) (w : World)
    (file : Multer.File) :
  Multer.form_file req = Some file ->
  fst (ServerJs.create env req w)
  = res_status_json 500 (JError "Failed to create todo") /\
  todos (snd (ServerJs.create env req w)) = todos w /\
  exists p, s3_calls (snd (ServerJs.create env req w)) = (s3_calls w ++ [S3.Upload p])%list.
Proof.
  intros Hf. unfold ServerJs.create, try_respond, bind. rewrite Hf.
  unfold s3_upload_promise, assign_to_const, throw.
  destruct (s3_upload env _); simpl; repeat split; eauto.
Qed.

(** C1, on [server.js]. A create request with a title and an allowed file,
    the bucket accepting the upload: the file is stored in the bucket, the
    answer is 500 and no row is inserted. *)
Theorem C1_server_js_create_with_file_500 :
  ServerJs.post_todos Sample.env
    (Sample.form (Some "Feed the cat") (Some Sample.photo)) Sample.empty
  = (res_status_json 500 (JError "Failed to create todo"),
     {| todos := [];
        todos_id_seq := 1;
        s3_calls :=
          [S3.Upload
             {| S3.Bucket := Some "workshop";
                S3.Key := "uploads/1700000000000-cat.png";
                S3.Body := Some "PNG";
                S3.ContentType := "image/png";
                S3.ACL := "public-read" |}] |}).
Proof. reflexivity. Qed.

(** The variant with the configuration checks does what C1 says: the row
    carries the location the bucket returned and the original file
    name. *)
Lemma part_000_create_with_file (env : Env) (req : Multer.Form) (w : World)
    (t : string) (file : Multer.File) (location : string) :
  Part000.dbConfigured env = true ->
  Part000.spacesConfigured env = true ->
  Multer.form_title req = Some t -> t <> "" -> (String.length t <= 255)%nat ->
  Multer.form_file req = Some file ->
  (String.length (Multer.originalname file) <= 255)%nat ->
  s3_upload env
    {| S3.Bucket := SPACES_BUCKET (process_env env);
       S3.Key :=
         String.append "uploads/"
           (String.append (Js.string_of_Z (Date_now env))
              (String.append "-" (Multer.originalname file)));
       S3.Body := Multer.buffer file;
       S3.ContentType := Multer.mimetype file;
       S3.ACL := "public-read" |} = Some location ->
  (String.length location <= 500)%nat ->
  pg_fault env INSERT = false ->
  fresh_id w = true ->
  let row :=
    Pg.new_row env (todos_id_seq w) t (Multer.form_description req)
      (Some location) (Some (Multer.originalname file)) in
  fst (Part000.create env req w) = res_status_json 201 (JTodo row) /\
  todos (snd (Part000.create env req w)) = (todos w ++ [row])%list.
Proof.
  intros Hdb Hsp Ht Hne Hlen Hf Hname Hup Hloc Hq Hfresh.
  assert (Htr : Js.truthy (Some t) = true).
  { simpl. destruct (String.eqb_spec t ""); [contradiction | reflexivity]. }
  unfold Part000.create. rewrite Hdb. cbn [negb].
  unfold try_respond, bind, try_catch, Part000.pool_query.
  rewrite Ht, Hf, Hsp, Hdb, Htr. cbn [negb].
  unfold s3_upload_promise. rewrite Hup. unfold ret. cbn [fst snd].
  rewrite insert_ok; try assumption.
  split; reflexivity.
Qed.

(** The variant of [part_001] answers 201, but the [file_name] it stores
    is the derived, timestamp-prefixed name. *)
Example part_001_create_stores_derived_name :
  fst (Part001.create Sample.env
         (Sample.form (Some "Feed the cat") (Some Sample.photo)) Sample.empty)
  = res_status_json 201
      (JTodo
         {| Todo.id := 1;
            Todo.title := "Feed the cat";
            Todo.description := Some "2%";
            Todo.completed := Some false;
            Todo.file_url :=
              Some "https://workshop.sgp1.digitaloceanspaces.com/uploads/1700000000000-cat.png";
            Todo.file_name := Some "1700000000000-cat.png";
            Todo.created_at := 1700000000;
            Todo.updated_at := 1700000000 |}).
Proof. reflexivity. Qed.

(** ** Create without a title *)

(** C2, on [server.js]. A create request with the empty string for title
    answers 201 and the row, empty title and all, is in the table. *)
Theorem C2_server_js_create_empty_title_201 :
  ServerJs.post_todos Sample.env (Sample.form (Some "") None) Sample.empty
  = (res_status_json 201 (JTodo (Pg.new_row Sample.env 1 "" (Some "2%") None None)),
     {| todos := [Pg.new_row Sample.env 1 "" (Some "2%") None None];
        todos_id_seq := 2;
        s3_calls := [] |}).
Proof. reflexivity. Qed.

(** With no title at all and a file, [server.js] has sent the file to the
    bucket by the time it fails. *)
Example server_js_create_no_title_uploads_first :
  let out := ServerJs.post_todos Sample.env (Sample.form None (Some Sample.photo))
               Sample.empty in
  status (fst out) = 500 /\ List.map S3.is_upload (s3_calls (snd out)) = [true].
Proof. split; reflexivity. Qed.

(** The variants that check the title do what C2 says: 400, and the
    world is as it was. *)
Lemma part_000_create_without_title (env : Env) (req : Multer.Form) (w : World) :
  Part000.dbConfigured env = true ->
  Js.truthy (Multer.form_title req) = false ->
  Part000.create env req w = (res_status_json 400 (JError "Title is required"), w).
Proof.
  intros Hdb Ht. unfold Part000.create. rewrite Hdb. simpl.
  unfold try_respond. rewrite Ht. reflexivity.
Qed.

Lemma part_002_create_without_title (env : Env) (req : Multer.Form) (w : World) :
  Js.truthy (Multer.form_title req) = false ->
  Part002.create env req w = (res_status_json 400 (JError "Title is required"), w).
Proof.
  intros Ht. unfold Part002.create, try_respond. rewrite Ht. reflexivity.
Qed.

(** ** Create with a file whose upload fails *)

(** C3, on [server.js]. A create request with a title and an allowed file,
    the bucket refusing the upload: the answer is 500 and no row is
    inserted. *)
Theorem C3_server_js_upload_failure_500 :
  ServerJs.post_todos Sample.env_bucket_down
    (Sample.form (Some "Feed the cat") (Some Sample.photo)) Sample.empty
  = (res_status_json 500 (JError "Failed to create todo"),
     {| todos := [];
        todos_id_seq := 1;
        s3_calls :=
          [S3.Upload
             {| S3.Bucket := Some "workshop";
                S3.Key := "uploads/1700000000000-cat.png";
                S3.Body := Some "PNG";
                S3.ContentType := "image/png";
                S3.ACL := "public-read" |}] |}).
Proof. reflexivity. Qed.

(** The variant with the configuration checks does what C3 says: the
    failed upload is absorbed and the todo is created without the file. *)
Lemma part_000_create_upload_failure (env : Env) (req : Multer.Form) (w : World)
    (t : string) (file : Multer.File) :
  Part000.dbConfigured env = true ->
  Part000.spacesConfigured env = true ->
  Multer.form_title req = Some t -> t <> "" -> (String.length t <= 255)%nat ->
  Multer.form_file req = Some file ->
  s3_upload env
    {| S3.Bucket := SPACES_BUCKET (process_env env);
       S3.Key :=
         String.append "uploads/"
           (String.append (Js.string_of_Z (Date_now env))
              (String.append "-" (Multer.originalname file)));
       S3.Body := Multer.buffer file;
       S3.ContentType := Multer.mimetype file;
       S3.ACL := "public-read" |} = None ->
  pg_fault env INSERT = false ->
  fresh_id w = true ->
  let row :=
    Pg.new_row env (todos_id_seq w) t (Multer.form_description req) None None in
  fst (Part000.create env req w) = res_status_json 201 (JTodo row) /\
  todos (snd (Part000.create env req w)) = (todos w ++ [row])%list.
Proof.
  intros Hdb Hsp Ht Hne Hlen Hf Hup Hq Hfresh.
  assert (Htr : Js.truthy (Some t) = true).
  { simpl. destruct (String.eqb_spec t ""); [contradiction | reflexivity]. }
  unfold Part000.create. rewrite Hdb. cbn [negb].
  unfold try_respond, bind, try_catch, Part000.pool_query.
  rewrite Ht, Hf, Hsp, Hdb, Htr. cbn [negb].
  unfold s3_upload_promise. rewrite Hup. unfold ret. cbn [fst snd].
  rewrite insert_ok; try assumption; try exact I.
  split; reflexivity.
Qed.

Example part_000_create_upload_failure_sample :
  fst (Part000.post_todos Sample.env_bucket_down
         (Sample.form (Some "Feed the cat") (Some Sample.photo)) Sample.empty)
  = res_status_json 201
      (JTodo (Pg.new_row Sample.env_bucket_down 1 "Feed the cat" (Some "2%") None None)).
Proof. reflexivity. Qed.

(** ** Delete *)

Lemma others_subset (i : Z) (l : list Todo.t) (r : Todo.t) :
  In r (others i l) -> In r l.
Proof. unfold others. rewrite filter_In. tauto. Qed.

Lemma others_spec (i : Z) (l : list Todo.t) (r : Todo.t) :
  Pg.int4 i = true ->
  (In r (others i l) <-> In r l /\ Todo.id r <> i).
Proof.
  intros Hint. unfold others. rewrite filter_In. unfold Pg.has_id. rewrite Hint.
  destruct (Z.eqb_spec (Todo.id r) i); simpl; intuition congruence.
Qed.

(** C4, on [server.js]. Deleting a todo with an attachment while the
    bucket refuses the deletion: one deletion is attempted, the answer is
    500 and the row is still in the table. *)
Theorem C4_server_js_blob_failure_keeps_row :
  ServerJs.delete Sample.env_bucket_down 2 Sample.two_todos
  = (res_status_json 500 (JError "Failed to delete todo"),
     {| todos := [Sample.milk; Sample.with_photo];
        todos_id_seq := 3;
        s3_calls :=
          [S3.DeleteObject
             {| S3.del_Bucket := Some "workshop";
                S3.del_Key := "uploads/1700000000000-cat.png" |}] |}).
Proof. reflexivity. Qed.

(** In [server.js] a refused deletion of the file always ends the request
    with 500 before the row is deleted. *)
Lemma server_js_delete_blob_failure (env : Env) (id : Z) (w : World)
    (row : Todo.t) (rest : list Todo.t) :
  pg_fault env SELECT_BY_ID = false ->
  List.filter (Pg.has_id id) (todos w) = row :: rest ->
  Js.truthy (Todo.file_url row) = true ->
  s3_deleteObject env
    {| S3.del_Bucket := SPACES_BUCKET (process_env env);
       S3.del_Key :=
         String.append "uploads/"
           (template (Js.pop (Js.split "/" (template (Todo.file_url row))))) |}
  = false ->
  fst (ServerJs.delete env id w)
  = res_status_json 500 (JError "Failed to delete todo") /\
  todos (snd (ServerJs.delete env id w)) = todos w.
Proof.
  intros Hq Hm Hurl Hdel.
  unfold ServerJs.delete, try_respond, bind, Pg.select_by_id.
  rewrite Hq, (filter_has_id_int4 _ _ _ _ Hm), Hm, Hurl. unfold s3_deleteObject_promise. rewrite Hdel.
  split; reflexivity.
Qed.

(** When the bucket deletes the file, [server.js] does what C4 says. *)
Lemma server_js_delete_blob_deleted (env : Env) (id : Z) (w : World)
    (row : Todo.t) (rest : list Todo.t) :
  pg_fault env SELECT_BY_ID = false ->
  pg_fault env DELETE = false ->
  List.filter (Pg.has_id id) (todos w) = row :: rest ->
  Js.truthy (Todo.file_url row) = true ->
  s3_deleteObject env
    {| S3.del_Bucket := SPACES_BUCKET (process_env env);
       S3.del_Key :=
         String.append "uploads/"
           (template (Js.pop (Js.split "/" (template (Todo.file_url row))))) |}
  = true ->
  exists p,
    ServerJs.delete env id w
    = (res_json (JMessage "Todo deleted successfully"),
       with_todos (others id (todos w)) (with_call (S3.DeleteObject p) w)).
Proof.
  intros Hq Hd Hm Hurl Hdel.
  unfold ServerJs.delete, try_respond, bind, Pg.select_by_id.
  rewrite Hq, (filter_has_id_int4 _ _ _ _ Hm), Hm, Hurl. unfold s3_deleteObject_promise. rewrite Hdel.
  unfold Pg.delete. rewrite Hd, ?(filter_has_id_int4 _ _ _ _ Hm). eexists. reflexivity.
Qed.

(** The variants that wrap the deletion of the file in its own [try] do
    what C4 says: one deletion is attempted, its outcome is ignored, the
    rows with that id are removed and the answer is 200. *)
Lemma part_002_delete_swallows (env : Env) (id : Z) (w : World)
    (row : Todo.t) (rest : list Todo.t) :
  pg_fault env SELECT_BY_ID = false ->
  pg_fault env DELETE = false ->
  List.filter (Pg.has_id id) (todos w) = row :: rest ->
  Js.truthy (Todo.file_url row) = true ->
  exists p,
    Part002.delete env id w
    = (res_json (JMessage "Todo deleted successfully"),
       with_todos (others id (todos w)) (with_call (S3.DeleteObject p) w)).
Proof.
  intros Hq Hd Hm Hurl.
  unfold Part002.delete, try_respond, bind, Pg.select_by_id, try_catch.
  rewrite Hq, (filter_has_id_int4 _ _ _ _ Hm), Hm, Hurl. unfold s3_deleteObject_promise.
  destruct (s3_deleteObject env _); unfold ret, Pg.delete; cbn [fst snd];
    rewrite Hd, ?(filter_has_id_int4 _ _ _ _ Hm); eexists; reflexivity.
Qed.

Lemma part_000_delete_swallows (env : Env) (id : Z) (w : World)
    (row : Todo.t) (rest : list Todo.t) :
  Part000.dbConfigured env = true ->
  Part000.spacesConfigured env = true ->
  pg_fault env SELECT_BY_ID = false ->
  pg_fault env DELETE = false ->
  List.filter (Pg.has_id id) (todos w) = row :: rest ->
  Js.truthy (Todo.file_url row) = true ->
  exists p,
    Part000.delete env id w
    = (res_json (JMessage "Todo deleted successfully"),
       with_todos (others id (todos w)) (with_call (S3.DeleteObject p) w)).
Proof.
  intros Hdb Hsp Hq Hd Hm Hurl.
  unfold Part000.delete, try_respond, bind, Pg.select_by_id, try_catch,
    Part000.pool_query, Part000.s3_deleteObject_call.
  rewrite Hdb, Hsp, Hq, (filter_has_id_int4 _ _ _ _ Hm), Hm, Hurl. unfold s3_deleteObject_promise.
  destruct (s3_deleteObject env _); unfold ret, Pg.delete; cbn [fst snd];
    rewrite Hd, ?(filter_has_id_int4 _ _ _ _ Hm); eexists; reflexivity.
Qed.

Example part_000_delete_bucket_down :
  Part000.delete Sample.env_bucket_down 2 Sample.two_todos
  = (res_json (JMessage "Todo deleted successfully"),
     {| todos := [Sample.milk];
        todos_id_seq := 3;
        s3_calls :=
          [S3.DeleteObject
             {| S3.del_Bucket := None;
                S3.del_Key := "uploads/1700000000000-cat.png" |}] |}).
Proof. reflexivity. Qed.

(** Whatever happens, [ServerJs.delete] leaves the table as it was or
    without the rows of that id. *)
Lemma server_js_delete_table (env : Env) (id : Z) (w : World) :
  todos (snd (ServerJs.delete env id w)) = todos w \/
  todos (snd (ServerJs.delete env id w)) = others id (todos w).
Proof.
  unfold ServerJs.delete, try_respond, bind, Pg.select_by_id.
  destruct (pg_fault env SELECT_BY_ID); [now left |].
  destruct (Pg.int4 id) eqn:Hint; [| now left].
  destruct (List.filter (Pg.has_id id) (todos w)) as [| row rest]; [now left |].
  destruct (Js.truthy (Todo.file_url row)).
  - unfold s3_deleteObject_promise. destruct (s3_deleteObject env _); [| now left].
    unfold Pg.delete. cbn [fst snd]. rewrite Hint.
    destruct (pg_fault env DELETE); [now left | now right].
  - unfold ret at 1, Pg.delete. cbn [fst snd]. rewrite Hint.
    destruct (pg_fault env DELETE); [now left | now right].
Qed.

(** ** Uploads refused by the upload middleware *)

(** The claim of C5 fails on a file of a type that is not allowed: the
    filter refuses it, and the answer is 500, not 400. *)
Lemma C5_disallowed_type_answers_500 :
  let form := Sample.form (Some "Install") (Some Sample.program) in
  Multer.form_file form = Some Sample.program /\
  ServerJs.fileFilter Sample.program
  = inl (new_Error "Only images, PDFs, and text files are allowed") /\
  ServerJs.post_todos Sample.env form Sample.empty
  = (res_status_json 500 (JError "Only images, PDFs, and text files are allowed"),
     Sample.empty) /\
  status (fst (ServerJs.post_todos Sample.env form Sample.empty)) <> 400.
Proof. repeat split. discriminate. Qed.

(** C5, amended. A file the filter refuses is answered with 500 and the
    filter's message; a file the filter accepts but that is larger than
    5 MB is answered with 400.  Either way the create handler does not
    run: no row is inserted and nothing is sent to the bucket. *)
Theorem C5_upload_refused_before_handler (env : Env) (form : Multer.Form) (w : World)
    (file : Multer.File) :
  Multer.form_file form = Some file ->
  (ServerJs.fileFilter file <> inr true ->
   ServerJs.post_todos env form w
   = (res_status_json 500 (JError "Only images, PDFs, and text files are allowed"), w)) /\
  (ServerJs.fileFilter file = inr true ->
   5 * 1024 * 1024 < Multer.size file ->
   ServerJs.post_todos env form w
   = (res_status_json 400 (JError "File too large"), w)).
Proof.
  intros Hf. unfold ServerJs.post_todos, Multer.single. rewrite Hf.
  change (Multer.fileFilter ServerJs.upload file) with (ServerJs.fileFilter file).
  change (Multer.limits_fileSize ServerJs.upload) with (5 * 1024 * 1024).
  split.
  - intros Hrej. unfold ServerJs.fileFilter in *.
    destruct (_ && _); [congruence | reflexivity].
  - intros Hacc Hbig. rewrite Hacc.
    destruct (Z.leb_spec (5 * 1024 * 1024) (Multer.size file)); [reflexivity | lia].
Qed.

Lemma C5_upload_refused_before_handler_witness :
  ServerJs.post_todos Sample.env (Sample.form (Some "Install") (Some Sample.program))
    Sample.empty
  = (res_status_json 500 (JError "Only images, PDFs, and text files are allowed"),
     Sample.empty) /\
  ServerJs.post_todos Sample.env (Sample.form (Some "Cat") (Some Sample.huge_photo))
    Sample.empty
  = (res_status_json 400 (JError "File too large"), Sample.empty).
Proof.
  split.
  - apply (C5_upload_refused_before_handler Sample.env
             (Sample.form (Some "Install") (Some Sample.program)) Sample.empty
             Sample.program eq_refl).
    discriminate.
  - apply (C5_upload_refused_before_handler Sample.env
             (Sample.form (Some "Cat") (Some Sample.huge_photo)) Sample.empty
             Sample.huge_photo eq_refl).
    + reflexivity.
    + reflexivity.
Defined.

(** ** The invariants of the table *)

Section Invariants.

Variable P : Todo.t -> bool.

Lemma forallb_snoc (l : list Todo.t) (r : Todo.t) :
  forallb P l = true -> P r = true -> forallb P (l ++ [r]) = true.
Proof.
  intros Hl Hr. rewrite forallb_app, Hl. simpl. now rewrite Hr.
Qed.

Lemma forallb_others (i : Z) (l : list Todo.t) :
  forallb P l = true -> forallb P (others i l) = true.
Proof.
  intros Hl. apply forallb_forall. intros r Hr.
  apply others_subset in Hr.
  now apply (proj1 (forallb_forall P l) Hl).
Qed.

Lemma forallb_update_rows (set : Todo.t -> Todo.t) (i : Z) (l : list Todo.t) :
  (forall r, P r = true -> P (set r) = true) ->
  forallb P l = true ->
  forallb P (List.map (fun r => if Pg.has_id i r then set r else r) l) = true.
Proof.
  intros Hset Hl. apply forallb_forall. intros r' Hr'.
  apply in_map_iff in Hr'. destruct Hr' as (r & <- & Hr).
  pose proof (proj1 (forallb_forall P l) Hl r Hr) as HP.
  destruct (Pg.has_id i r); auto.
Qed.

End Invariants.

Lemma new_row_paired (env : Env) (i : Z) (t : string) (d u n c_u c_n : option string) :
  (u = None <-> n = None) ->
  Pg.varchar_param 500 u = Some c_u ->
  Pg.varchar_param 255 n = Some c_n ->
  paired (Pg.new_row env i t d c_u c_n) = true.
Proof.
  intros Hun Hu Hn.
  apply varchar_param_same_shape in Hu, Hn.
  unfold paired. simpl.
  destruct c_u, c_n; try reflexivity; exfalso.
  - assert (u = None) by (apply Hun, Hn; reflexivity).
    assert (@Some string s = None) by (apply Hu; assumption). discriminate.
  - assert (n = None) by (apply Hun, Hu; reflexivity).
    assert (@Some string s = None) by (apply Hn; assumption). discriminate.
Qed.

Lemma new_row_titled (env : Env) (i : Z) (t : option string) (s : string)
    (d u n : option string) :
  Js.truthy t = true ->
  Pg.varchar_param 255 t = Some (Some s) ->
  titled (Pg.new_row env i s d u n) = true.
Proof.
  destruct t as [t0 |]; simpl; [| discriminate].
  intros Ht Hv. destruct (Pg.varchar 255 t0) as [s' |] eqn:E; [| discriminate].
  injection Hv as ->.
  unfold titled. simpl.
  destruct (String.eqb_spec s "") as [-> | _]; [| reflexivity].
  exfalso. apply (varchar_nonempty _ _ E); [| reflexivity].
  intros ->. discriminate.
Qed.

Ltac by_insert :=
  match goal with
  | |- context [Pg.insert ?e ?t ?d ?u ?n ?w] =>
      destruct (insert_cases e t d u n w)
        as [(err & w1 & E & Ht & _) | (s & c_u & c_n & Hs & Hu & Hn & E)];
      rewrite E; cbn [fst snd];
      [ left; exact Ht
      | right; exists s, d, u, n, c_u, c_n;
        repeat split; try assumption; try discriminate; try reflexivity ]
  end.

Lemma server_js_create_appends (env : Env) (req : Multer.Form) (w : World) :
  appends_row env (Multer.form_title req) w (ServerJs.create env req w).
Proof.
  unfold ServerJs.create, try_respond, bind.
  destruct (Multer.form_file req) as [file |].
  - left. unfold s3_upload_promise, assign_to_const, throw.
    destruct (s3_upload env _) as [location |]; reflexivity.
  - unfold ret at 1. cbn [fst snd]. by_insert.
Qed.

Lemma part_001_create_appends (env : Env) (req : Multer.Form) (w : World) :
  appends_row env (Multer.form_title req) w (Part001.create env req w).
Proof.
  unfold Part001.create, try_respond, bind.
  destruct (Multer.form_file req) as [file |].
  - unfold s3_upload_promise. destruct (s3_upload env _) as [location |]; [| now left].
    unfold ret at 1. cbn [fst snd]. by_insert.
  - unfold ret at 1. cbn [fst snd]. by_insert.
Qed.

Lemma part_002_create_appends (env : Env) (req : Multer.Form) (w : World) :
  appends_row env (Multer.form_title req) w (Part002.create env req w) /\
  (Js.truthy (Multer.form_title req) = false ->
   todos (snd (Part002.create env req w)) = todos w).
Proof.
  unfold Part002.create, try_respond.
  destruct (Js.truthy (Multer.form_title req)); cbn [negb];
    [| split; [now left | reflexivity]].
  split; [| discriminate]. unfold bind.
  destruct (Multer.form_file req) as [file |].
  - unfold s3_upload_promise. destruct (s3_upload env _) as [location |]; [| now left].
    unfold ret at 1. cbn [fst snd]. by_insert.
  - unfold ret at 1. cbn [fst snd]. by_insert.
Qed.

Lemma part_000_create_appends (env : Env) (req : Multer.Form) (w : World) :
  appends_row env (Multer.form_title req) w (Part000.create env req w) /\
  (Js.truthy (Multer.form_title req) = false ->
   todos (snd (Part000.create env req w)) = todos w).
Proof.
  unfold Part000.create.
  destruct (Part000.dbConfigured env) eqn:Hdb; cbn [negb];
    [| split; [now left | reflexivity]].
  unfold try_respond.
  destruct (Js.truthy (Multer.form_title req)); cbn [negb];
    [| split; [now left | reflexivity]].
  split; [| discriminate]. unfold bind, Part000.pool_query. rewrite Hdb.
  destruct (Multer.form_file req) as [file |].
  - destruct (Part000.spacesConfigured env).
    + unfold try_catch, s3_upload_promise.
      destruct (s3_upload env _) as [location |];
        unfold ret at 1; cbn [fst snd]; by_insert.
    + unfold ret at 1. cbn [fst snd]. by_insert.
  - unfold ret at 1. cbn [fst snd]. by_insert.
Qed.

Lemma appends_row_paired (env : Env) (title : option string) (w : World)
    (out : Response * World) :
  appends_row env title w out ->
  invariant_paired w = true -> invariant_paired (snd out) = true.
Proof.
  unfold invariant_paired.
  intros [E | (s & d & u & n & c_u & c_n & _ & Hun & Hu & Hn & E)] Hw; rewrite E.
  - exact Hw.
  - apply forallb_snoc; [exact Hw |]. now apply (new_row_paired env _ s d u n).
Qed.

Lemma appends_row_titled (env : Env) (title : option string) (w : World)
    (out : Response * World) :
  appends_row env title w out ->
  Js.truthy title = true ->
  invariant_titled w = true -> invariant_titled (snd out) = true.
Proof.
  unfold invariant_titled.
  intros [E | (s & d & u & n & c_u & c_n & Hs & _ & _ & _ & E)] Ht Hw; rewrite E.
  - exact Hw.
  - apply forallb_snoc; [exact Hw |]. now apply (new_row_titled env _ title).
Qed.

Lemma single_keeps_title (o : Multer.Options) (form req : Multer.Form) :
  Multer.single o form = inr req -> Multer.form_title req = Multer.form_title form.
Proof.
  unfold Multer.single.
  destruct (Multer.form_file form) as [f |]; [| now intros [= <-]].
  destruct (Multer.fileFilter o f) as [err | [|]]; try discriminate.
  - destruct (Multer.limits_fileSize o <=? Multer.size f); [discriminate |].
    now intros [= <-].
  - now intros [= <-].
Qed.

Lemma server_js_post_appends (env : Env) (form : Multer.Form) (w : World) :
  appends_row env (Multer.form_title form) w (ServerJs.post_todos env form w).
Proof.
  unfold ServerJs.post_todos.
  destruct (Multer.single ServerJs.upload form) as [err | req] eqn:E; [now left |].
  rewrite <- (single_keeps_title _ _ _ E). apply server_js_create_appends.
Qed.

Lemma part_000_post_appends (env : Env) (form : Multer.Form) (w : World) :
  appends_row env (Multer.form_title form) w (Part000.post_todos env form w) /\
  (Js.truthy (Multer.form_title form) = false ->
   todos (snd (Part000.post_todos env form w)) = todos w).
Proof.
  unfold Part000.post_todos.
  destruct (Multer.single Part000.upload form) as [err | req] eqn:E;
    [split; [now left | reflexivity] |].
  rewrite <- (single_keeps_title _ _ _ E). apply part_000_create_appends.
Qed.

Lemma server_js_update_table (env : Env) (req : UpdateRequest) (w : World) :
  todos (snd (ServerJs.update env req w)) = todos w \/
  exists t,
    Pg.varchar_param 255 (body_title req) = Some (Some t) /\
    todos (snd (ServerJs.update env req w))
    = List.map
        (fun r =>
           if Pg.has_id (params_id req) r
           then Pg.set_columns env t (body_description req) (body_completed req) r
           else r)
        (todos w).
Proof.
  destruct (update_cases env req w)
    as [E | [[E _] | (t & r0 & rs & Ht & _ & E)]]; cbv zeta in E; rewrite E.
  - now left.
  - now left.
  - right. exists t. split; [exact Ht | reflexivity].
Qed.

(** The claim of C6 fails on an update that sends the empty string for
    title: the table satisfied both invariants, the update answers 200,
    and the row now has an empty title. *)
Lemma C6_update_stores_empty_title :
  let out := ServerJs.update Sample.env (Sample.put 1 (Some "")) Sample.two_todos in
  invariant_paired Sample.two_todos = true /\
  invariant_titled Sample.two_todos = true /\
  status (fst out) = 200 /\
  invariant_titled (snd out) = false /\
  List.map Todo.title (todos (snd out)) = [""; "Feed the cat"].
Proof. repeat split. Qed.

(** C6, amended. Every operation keeps [file_url] and [file_name] both
    present or both absent in every stored row.  Titles stay non-empty
    under delete, under a create whose handler checks the title, under a
    create whose title is not empty, and under an update whose title is
    not empty; no handler checks the title of an update. *)
Theorem C6_invariants_preserved (env : Env) (w : World) :
  (invariant_paired w = true ->
   (forall form, invariant_paired (snd (ServerJs.post_todos env form w)) = true) /\
   (forall req, invariant_paired (snd (ServerJs.update env req w)) = true) /\
   (forall id, invariant_paired (snd (ServerJs.delete env id w)) = true) /\
   (forall form, invariant_paired (snd (Part000.post_todos env form w)) = true) /\
   (forall form, invariant_paired (snd (Part001.create env form w)) = true) /\
   (forall form, invariant_paired (snd (Part002.create env form w)) = true)) /\
  (invariant_titled w = true ->
   (forall id, invariant_titled (snd (ServerJs.delete env id w)) = true) /\
   (forall form, invariant_titled (snd (Part000.post_todos env form w)) = true) /\
   (forall form, invariant_titled (snd (Part002.create env form w)) = true) /\
   (forall form, Js.truthy (Multer.form_title form) = true ->
      invariant_titled (snd (ServerJs.post_todos env form w)) = true) /\
   (forall req, Js.truthy (body_title req) = true ->
      invariant_titled (snd (ServerJs.update env req w)) = true)).
Proof.
  split; intros Hw.
  - repeat split.
    + intros form. eapply appends_row_paired; [apply server_js_post_appends | exact Hw].
    + intros req. unfold invariant_paired in *.
      destruct (server_js_update_table env req w) as [E | (t & _ & E)]; rewrite E;
        [exact Hw |].
      apply forallb_update_rows; [| exact Hw]. intros r Hr. exact Hr.
    + intros id. unfold invariant_paired in *.
      destruct (server_js_delete_table env id w) as [E | E]; rewrite E;
        [exact Hw | now apply forallb_others].
    + intros form. eapply appends_row_paired; [apply part_000_post_appends | exact Hw].
    + intros form. eapply appends_row_paired; [apply part_001_create_appends | exact Hw].
    + intros form. eapply appends_row_paired; [apply part_002_create_appends | exact Hw].
  - repeat split.
    + intros id. unfold invariant_titled in *.
      destruct (server_js_delete_table env id w) as [E | E]; rewrite E;
        [exact Hw | now apply forallb_others].
    + intros form. destruct (part_000_post_appends env form w) as [Ha Hn].
      destruct (Js.truthy (Multer.form_title form)) eqn:Ht.
      * eapply appends_row_titled; eassumption.
      * unfold invariant_titled in *. now rewrite Hn.
    + intros form. destruct (part_002_create_appends env form w) as [Ha Hn].
      destruct (Js.truthy (Multer.form_title form)) eqn:Ht.
      * eapply appends_row_titled; eassumption.
      * unfold invariant_titled in *. now rewrite Hn.
    + intros form Ht. eapply appends_row_titled;
        [apply server_js_post_appends | exact Ht | exact Hw].
    + intros req Ht. unfold invariant_titled in *.
      destruct (server_js_update_table env req w) as [E | (t & Hv & E)]; rewrite E;
        [exact Hw |].
      apply forallb_update_rows; [| exact Hw]. intros r _.
      apply (new_row_titled env 0 (body_title req) t None None None Ht Hv).
Qed.

Lemma C6_invariants_preserved_witness :
  invariant_paired Sample.two_todos = true /\
  invariant_titled Sample.two_todos = true /\
  invariant_paired
    (snd (ServerJs.update Sample.env (Sample.put 2 (Some "")) Sample.two_todos)) = true /\
  invariant_titled (snd (ServerJs.delete Sample.env 2 Sample.two_todos)) = true /\
  invariant_titled
    (snd (ServerJs.update Sample.env (Sample.put 2 (Some "Feed both cats"))
            Sample.two_todos)) = true.
Proof.
  pose proof (C6_invariants_preserved Sample.env Sample.two_todos) as [Hp Ht].
  specialize (Hp eq_refl). specialize (Ht eq_refl).
  destruct Hp as (_ & Hupd & _). destruct Ht as (Hdel & _ & _ & _ & Hupd').
  split; [reflexivity |]. split; [reflexivity |].
  split; [apply Hupd |]. split; [apply Hdel |].
  apply Hupd'. reflexivity.
Defined.

(** ** The same upload in the sibling variants *)

Example part_000_disallowed_type_answers_500 :
  Part000.post_todos Sample.env (Sample.form (Some "Install") (Some Sample.program))
    Sample.empty
  = (res_status_json 500 (JError "Internal server error"), Sample.empty).
Proof. reflexivity. Qed.

Example part_002_disallowed_type_answers_500 :
  Part002.post_todos Sample.env (Sample.form (Some "Install") (Some Sample.program))
    Sample.empty
  = (res_status_json 500 (JError "Internal server error"), Sample.empty).
Proof. reflexivity. Qed.

(** A file that is both of a refused type and too large is answered by
    the filter, which runs first. *)
Example server_js_large_program_answers_500 :
  fst (ServerJs.post_todos Sample.env
         (Sample.form (Some "Install")
            (Some {| Multer.originalname := "setup.exe";
                     Multer.mimetype := "application/x-msdownload";
                     Multer.size := 6 * 1024 * 1024;
                     Multer.buffer := Some "MZ" |}))
         Sample.empty)
  = res_status_json 500 (JError "Only images, PDFs, and text files are allowed").
Proof. reflexivity. Qed.

(** The size limit is reached by a file of exactly 5 MB; a file one byte
    shorter is handed to the route handler. *)
Example server_js_limit_photo_answers_400 :
  ServerJs.post_todos Sample.env (Sample.form (Some "Cat") (Some Sample.limit_photo))
    Sample.empty
  = (res_status_json 400 (JError "File too large"), Sample.empty).
Proof. reflexivity. Qed.

Example single_below_limit :
  let f :=
    {| Multer.originalname := "cat.png";
       Multer.mimetype := "image/png";
       Multer.size := 5 * 1024 * 1024 - 1;
       Multer.buffer := Some "PNG" |} in
  Multer.single ServerJs.upload (Sample.form (Some "Cat") (Some f))
  = inr (Sample.form (Some "Cat") (Some f)).
Proof. reflexivity. Qed.

(** * Further properties of the handlers *)

(** ** Create without a file *)

(** Everything a 201 of [POST /api/todos] in [server.js] tells about the
    request and the table it found. *)
Lemma post_todos_201_inv (env : Env) (form : Multer.Form) (w : World) :
  status (fst (ServerJs.post_todos env form w)) = 201 ->
  exists t,
    Pg.varchar_param 255 (Multer.form_title form) = Some (Some t) /\
    Pg.in_sequence (todos_id_seq w) = true /\
    existsb (Pg.has_id (todos_id_seq w)) (todos w) = false /\
    let row :=
      Pg.new_row env (todos_id_seq w) t (Multer.form_description form) None None in
    ServerJs.post_todos env form w
    = (res_status_json 201 (JTodo row),
       with_todos (todos w ++ [row]) (with_seq (todos_id_seq w + 1) w)).
Proof.
  unfold ServerJs.post_todos.
  destruct (Multer.single ServerJs.upload form) as [err | req] eqn:Hs.
  - unfold ServerJs.error_middleware. simpl.
    destruct (class err); try discriminate.
    destruct (String.eqb (code err) "LIMIT_FILE_SIZE"); discriminate.
  - assert (Hd : Multer.form_description req = Multer.form_description form).
    { unfold Multer.single in Hs.
      destruct (Multer.form_file form) as [f |]; [| now injection Hs as <-].
      destruct (Multer.fileFilter ServerJs.upload f) as [e | [|]]; try discriminate.
      - destruct (_ <=? _); [discriminate | now injection Hs as <-].
      - now injection Hs as <-. }
    rewrite <- (single_keeps_title _ _ _ Hs), <- Hd.
    unfold ServerJs.create, try_respond, bind.
    destruct (Multer.form_file req) as [file |].
    + unfold s3_upload_promise, assign_to_const, throw.
      destruct (s3_upload env _); simpl; discriminate.
    + unfold ret, Pg.insert. cbn [fst snd Pg.varchar_param].
      destruct (pg_fault env INSERT); [simpl; discriminate |].
      destruct (Pg.varchar_param 255 (Multer.form_title req)) as [c |];
        [| simpl; discriminate].
      destruct (Pg.in_sequence (todos_id_seq w)); [| simpl; discriminate].
      destruct c as [t |]; [| simpl; discriminate].
      destruct (existsb (Pg.has_id (todos_id_seq w)) (todos w));
        [simpl; discriminate |].
      intros _. exists t. repeat split.
Qed.

(** X1. In [server.js] a create request without a file, with a title of
    at most 255 characters, answers 201 with the new row: the next id of
    the sequence, [completed] false, no attachment, both timestamps the
    current time.  The row is appended to the table and the bucket is not
    called. *)
Theorem create_without_file_201 (env : Env) (form : Multer.Form) (w : World)
    (t : string) :
  Multer.form_file form = None ->
  Multer.form_title form = Some t ->
  (String.length t <= 255)%nat ->
  pg_fault env INSERT = false ->
  fresh_id w = true ->
  let row :=
    Pg.new_row env (todos_id_seq w) t (Multer.form_description form) None None in
  ServerJs.post_todos env form w
  = (res_status_json 201 (JTodo row),
     with_todos (todos w ++ [row]) (with_seq (todos_id_seq w + 1) w)).
Proof.
  intros Hf Ht Hlen Hq Hfresh.
  unfold ServerJs.post_todos, Multer.single. rewrite Hf.
  unfold ServerJs.create, try_respond, bind. rewrite Hf, Ht.
  unfold ret at 1. cbn [fst snd].
  rewrite insert_ok; try assumption; try exact I. reflexivity.
Qed.

Lemma create_without_file_201_witness :
  ServerJs.post_todos Sample.env (Sample.form (Some "Water the plants") None)
    Sample.two_todos
  = (res_status_json 201
       (JTodo (Pg.new_row Sample.env 3 "Water the plants" (Some "2%") None None)),
     {| todos :=
          [Sample.milk; Sample.with_photo;
           Pg.new_row Sample.env 3 "Water the plants" (Some "2%") None None];
        todos_id_seq := 4;
        s3_calls := [] |}).
Proof.
  apply (create_without_file_201 Sample.env (Sample.form (Some "Water the plants") None)
           Sample.two_todos "Water the plants");
    try reflexivity.
  simpl. lia.
Defined.

(** A create request without a file is the insert of its two fields. *)
Lemma post_without_file (env : Env) (form : Multer.Form) (w : World) :
  Multer.form_file form = None ->
  ServerJs.post_todos env form w
  = match Pg.insert env (Multer.form_title form) (Multer.form_description form)
            None None w with
    | (Return rows, w') => (res_status_json 201 (rows0 rows), w')
    | (Throw _, w') => (res_status_json 500 (JError "Failed to create todo"), w')
    end.
Proof.
  intros Hf. unfold ServerJs.post_todos, Multer.single. rewrite Hf.
  unfold ServerJs.create, try_respond, bind. rewrite Hf.
  unfold ret. cbn [fst snd].
  destruct (Pg.insert _ _ _ _ _ w) as [[rows | e] w']; reflexivity.
Qed.

(** X2. In [server.js] a create request that carries no file and no
    title field is not refused as a bad request.  The route hands the
    form to the handler, which sends the insert with a [NULL] title; the
    answer is 500 with the handler's message, no row is inserted and the
    bucket is not called.  When the database is reached and the sequence
    is not exhausted, the refusal is the not-null violation of [title],
    and the id the insert had drawn from the sequence is not given back. *)
Theorem create_missing_title_500 (env : Env) (form : Multer.Form) (w : World) :
  Multer.form_file form = None ->
  Multer.form_title form = None ->
  fst (ServerJs.post_todos env form w)
  = res_status_json 500 (JError "Failed to create todo") /\
  todos (snd (ServerJs.post_todos env form w)) = todos w /\
  s3_calls (snd (ServerJs.post_todos env form w)) = s3_calls w /\
  (pg_fault env INSERT = false ->
   Pg.in_sequence (todos_id_seq w) = true ->
   Pg.insert env None (Multer.form_description form) None None w
   = (Throw Pg.not_null_violation, with_seq (todos_id_seq w + 1) w) /\
   ServerJs.post_todos env form w
   = (res_status_json 500 (JError "Failed to create todo"),
      with_seq (todos_id_seq w + 1) w)).
Proof.
  intros Hf Ht.
  rewrite (post_without_file _ _ _ Hf), Ht.
  unfold Pg.insert. cbn [Pg.varchar_param].
  destruct (pg_fault env INSERT); [repeat split; discriminate |].
  destruct (Pg.in_sequence (todos_id_seq w)); repeat split; discriminate.
Qed.

Lemma create_missing_title_500_witness :
  Pg.insert Sample.env None (Some "2%") None None Sample.two_todos
  = (Throw Pg.not_null_violation, with_seq 4 Sample.two_todos) /\
  ServerJs.post_todos Sample.env (Sample.form None None) Sample.two_todos
  = (res_status_json 500 (JError "Failed to create todo"),
     with_seq 4 Sample.two_todos).
Proof.
  apply (create_missing_title_500 Sample.env (Sample.form None None) Sample.two_todos);
    reflexivity.
Defined.






(** X4. [POST /api/todos] of [server.js] answers 201, 400 or 500, and 400
    in one case only: the file passed the filter and has 5 MB or more (a
    file of exactly 5 MB is refused).  A missing or empty title never
    gives 400. *)
Theorem post_todos_status (env : Env) (form : Multer.Form) (w : World) :
  let s := status (fst (ServerJs.post_todos env form w)) in
  (s = 201 \/ s = 400 \/ s = 500) /\
  (s = 400 <->
   exists f, Multer.form_file form = Some f /\
             ServerJs.fileFilter f = inr true /\
             5 * 1024 * 1024 <= Multer.size f).
Proof.
  cbv zeta. unfold ServerJs.post_todos, Multer.single.
  destruct (Multer.form_file form) as [f |] eqn:Hf.
  - change (Multer.fileFilter ServerJs.upload f) with (ServerJs.fileFilter f).
    change (Multer.limits_fileSize ServerJs.upload) with (5 * 1024 * 1024).
    destruct (ServerJs.fileFilter f) as [err | [|]] eqn:Hff.
    + assert (Herr : class err = PlainError).
      { unfold ServerJs.fileFilter in Hff. destruct (_ && _); [discriminate |].
        now injection Hff as <-. }
      unfold ServerJs.error_middleware. rewrite Herr. simpl. split; [auto |].
      split; [discriminate | intros (f' & [= <-] & Hacc & _); congruence].
    + destruct (Z.leb_spec (5 * 1024 * 1024) (Multer.size f)) as [Hbig | Hsmall].
      * simpl. split; [auto |]. split; [intros _; eauto | reflexivity].
      * match goal with
        | |- context [ServerJs.create ?e ?r ?w0] =>
            destruct (create_cases e r w0) as [(E & _ & _) | (row & _ & E & _)]
        end.
        -- rewrite E. split; [auto |].
           split; [discriminate | intros (f' & [= <-] & _ & Hbig); lia].
        -- rewrite E. simpl. split; [auto |].
           split; [discriminate | intros (f' & [= <-] & _ & Hbig); lia].
    + match goal with
      | |- context [ServerJs.create ?e ?r ?w0] =>
          destruct (create_cases e r w0) as [(E & _ & _) | (row & _ & E & _)]
      end.
      * rewrite E. split; [auto |].
        split; [discriminate | intros (f' & [= <-] & Hacc & _); congruence].
      * rewrite E. simpl. split; [auto |].
        split; [discriminate | intros (f' & [= <-] & Hacc & _); congruence].
  - destruct (create_cases env form w) as [(E & _ & _) | (row & _ & E & _)].
    + rewrite E. split; [auto |].
      split; [discriminate | intros (f' & [=] & _)].
    + rewrite E. simpl. split; [auto |].
      split; [discriminate | intros (f' & [=] & _)].
Qed.

Lemma post_todos_status_witness :
  status (fst (ServerJs.post_todos Sample.env
                 (Sample.form (Some "Cat") (Some Sample.limit_photo)) Sample.empty)) = 400.
Proof.
  apply (proj2 (post_todos_status Sample.env
                  (Sample.form (Some "Cat") (Some Sample.limit_photo)) Sample.empty)).
  exists Sample.limit_photo. repeat split. discriminate.
Defined.

(** ** Splitting a location at its slashes *)

Lemma append_assoc (a b c : string) :
  String.append (String.append a b) c = String.append a (String.append b c).
Proof.
  induction a as [| x a IH]; [reflexivity |].
  change (String x (String.append (String.append a b) c)
          = String x (String.append a (String.append b c))).
  now rewrite IH.
Qed.

Lemma split_not_nil (c : ascii) (s : string) : Js.split c s <> [].
Proof.
  induction s as [| a s IH]; simpl; [discriminate |].
  destruct (Ascii.eqb a c); [discriminate |].
  destruct (Js.split c s); [contradiction | discriminate].
Qed.

Lemma split_char_free (c : ascii) (s : string) :
  char_free c s = true -> Js.split c s = [s].
Proof.
  unfold char_free. induction s as [| a s IH]; simpl; [reflexivity |].
  destruct (Ascii.eqb a c); simpl; [discriminate |].
  intros H. now rewrite (IH H).
Qed.

(** The pieces of [base/name] are the pieces of [base], then [name]. *)
Lemma split_snoc (c : ascii) (base name : string) :
  char_free c name = true ->
  Js.split c (String.append base (String c name)) = (Js.split c base ++ [name])%list.
Proof.
  intros Hn. induction base as [| a b IH]; simpl.
  - rewrite Ascii.eqb_refl. now rewrite (split_char_free _ _ Hn).
  - destruct (Ascii.eqb a c); [now rewrite IH |].
    rewrite IH. pose proof (split_not_nil c b) as Hb.
    destruct (Js.split c b) as [| p ps]; [contradiction | reflexivity].
Qed.

Lemma pop_last_segment (base name : string) :
  char_free "/" name = true ->
  Js.pop (Js.split "/" (String.append base (String "/" name))) = Some name.
Proof.
  intros Hn. unfold Js.pop. rewrite (split_snoc _ _ _ Hn). apply last_snoc.
Qed.

Lemma slice_last_two_segments (base dir name : string) :
  char_free "/" dir = true ->
  char_free "/" name = true ->
  Js.join "/"
    (Js.slice_last 2
       (Js.split "/"
          (String.append base (String "/" (String.append dir (String "/" name))))))
  = String.append dir (String "/" name).
Proof.
  intros Hd Hn.
  change (String "/" (String.append dir (String "/" name)))
    with (String.append (String "/" dir) (String "/" name)).
  rewrite <- append_assoc, (split_snoc _ _ _ Hn), (split_snoc _ _ _ Hd).
  unfold Js.slice_last. rewrite !length_app. simpl.
  replace (length (Js.split "/" base) + 1 + 1 - 2)%nat
    with (length (Js.split "/" base)) by lia.
  rewrite <- app_assoc, drop_app_length. reflexivity.
Qed.

(** ** Delete in [server.js] *)

Lemma server_js_delete_no_match (env : Env) (id : Z) (w : World) :
  pg_fault env SELECT_BY_ID = false ->
  Pg.int4 id = true ->
  List.filter (Pg.has_id id) (todos w) = [] ->
  ServerJs.delete env id w = (res_status_json 404 (JError "Todo not found"), w).
Proof.
  intros Hq Hint Hnone.
  unfold ServerJs.delete, try_respond, bind, Pg.select_by_id.
  now rewrite Hq, Hint, Hnone.
Qed.

Lemma server_js_delete_refused (env : Env) (id : Z) (w : World) :
  pg_fault env SELECT_BY_ID = true \/ Pg.int4 id = false ->
  ServerJs.delete env id w
  = (res_status_json 500 (JError "Failed to delete todo"), w).
Proof.
  intros H.
  unfold ServerJs.delete, try_respond, bind, Pg.select_by_id.
  destruct (pg_fault env SELECT_BY_ID); [reflexivity |].
  destruct H as [H | H]; [discriminate | now rewrite H].
Qed.

(** X5. Deleting an id that no row has changes nothing: the table and
    the sequence are as they were and the bucket is not called.  The
    answer is 404 when the database takes the lookup: it is reached and
    the id is in the range of the four-byte [id] column.  Otherwise the
    lookup throws and the answer is 500. *)
Theorem delete_unknown_id (env : Env) (id : Z) (w : World) :
  (forall r, In r (todos w) -> Todo.id r <> id) ->
  snd (ServerJs.delete env id w) = w /\
  (pg_fault env SELECT_BY_ID = false ->
   Pg.int4 id = true ->
   ServerJs.delete env id w = (res_status_json 404 (JError "Todo not found"), w)) /\
  (pg_fault env SELECT_BY_ID = true \/ Pg.int4 id = false ->
   ServerJs.delete env id w
   = (res_status_json 500 (JError "Failed to delete todo"), w)).
Proof.
  intros Hnone.
  pose proof (filter_has_id_nil id (todos w) Hnone) as Hf.
  split; [| split].
  - destruct (pg_fault env SELECT_BY_ID) eqn:Hq;
      [now rewrite server_js_delete_refused by now left |].
    destruct (Pg.int4 id) eqn:Hint;
      [now rewrite server_js_delete_no_match
      | now rewrite server_js_delete_refused by now right].
  - intros Hq Hint. now apply server_js_delete_no_match.
  - apply server_js_delete_refused.
Qed.

Lemma delete_unknown_id_witness :
  ServerJs.delete Sample.env 7 Sample.two_todos
  = (res_status_json 404 (JError "Todo not found"), Sample.two_todos) /\
  ServerJs.delete Sample.env 2147483648 Sample.two_todos
  = (res_status_json 500 (JError "Failed to delete todo"), Sample.two_todos).
Proof.
  assert (H7 : forall r, In r (todos Sample.two_todos) -> Todo.id r <> 7).
  { simpl. intros r [<- | [<- | []]]; simpl; lia. }
  assert (Hbig : forall r, In r (todos Sample.two_todos) -> Todo.id r <> 2147483648).
  { simpl. intros r [<- | [<- | []]]; simpl; lia. }
  split.
  - apply (delete_unknown_id Sample.env 7 Sample.two_todos H7); reflexivity.
  - apply (delete_unknown_id Sample.env 2147483648 Sample.two_todos Hbig).
    right. reflexivity.
Defined.

(** X6. Deleting a todo that has no attachment ([file_url] null or the
    empty string) never calls the bucket: the answer is 200, the rows of
    that id are gone and every other row is still there, in its place. *)
Theorem delete_without_attachment (env : Env) (id : Z) (w : World)
    (row : Todo.t) (rest : list Todo.t) :
  pg_fault env SELECT_BY_ID = false ->
  pg_fault env DELETE = false ->
  List.filter (Pg.has_id id) (todos w) = row :: rest ->
  Js.truthy (Todo.file_url row) = false ->
  ServerJs.delete env id w
  = (res_json (JMessage "Todo deleted successfully"),
     with_todos (others id (todos w)) w) /\
  forall r, In r (others id (todos w)) <-> In r (todos w) /\ Todo.id r <> id.
Proof.
  intros Hq Hd Hm Hurl.
  pose proof (filter_has_id_int4 _ _ _ _ Hm) as Hint.
  split; [| intros r; now apply others_spec].
  unfold ServerJs.delete, try_respond, bind, Pg.select_by_id.
  rewrite Hq, (filter_has_id_int4 _ _ _ _ Hm), Hm, Hurl. unfold ret, Pg.delete. cbn [fst snd].
  now rewrite Hd, ?(filter_has_id_int4 _ _ _ _ Hm).
Qed.

Lemma delete_without_attachment_witness :
  ServerJs.delete Sample.env 1 Sample.two_todos
  = (res_json (JMessage "Todo deleted successfully"),
     with_todos [Sample.with_photo] Sample.two_todos).
Proof.
  apply (delete_without_attachment Sample.env 1 Sample.two_todos Sample.milk []);
    reflexivity.
Defined.

Lemma server_js_delete_200 (env : Env) (id : Z) (w : World) :
  status (fst (ServerJs.delete env id w)) = 200 ->
  Pg.int4 id = true /\
  todos (snd (ServerJs.delete env id w)) = others id (todos w).
Proof.
  unfold ServerJs.delete, try_respond, bind, Pg.select_by_id.
  destruct (pg_fault env SELECT_BY_ID); [simpl; discriminate |].
  destruct (Pg.int4 id) eqn:Hint; [| simpl; discriminate].
  destruct (List.filter (Pg.has_id id) (todos w)) as [| row rest];
    [simpl; discriminate |].
  destruct (Js.truthy (Todo.file_url row)).
  - unfold s3_deleteObject_promise.
    destruct (s3_deleteObject env _); [| simpl; discriminate].
    unfold Pg.delete, ret. cbn [fst snd]. rewrite Hint.
    destruct (pg_fault env DELETE); [simpl; discriminate | now split].
  - unfold ret, Pg.delete. cbn [fst snd]. rewrite Hint.
    destruct (pg_fault env DELETE); [simpl; discriminate | now split].
Qed.

(** X7. Once a delete of an id has answered 200, a second delete of the
    same id answers 404 and changes nothing. *)
Theorem delete_twice_404 (env env' : Env) (id : Z) (w : World) :
  status (fst (ServerJs.delete env id w)) = 200 ->
  pg_fault env' SELECT_BY_ID = false ->
  ServerJs.delete env' id (snd (ServerJs.delete env id w))
  = (res_status_json 404 (JError "Todo not found"), snd (ServerJs.delete env id w)).
Proof.
  intros H200 Hq. destruct (server_js_delete_200 _ _ _ H200) as [Hint Hrows].
  apply server_js_delete_no_match; [exact Hq | exact Hint |].
  apply filter_has_id_nil.
  intros r Hr. rewrite Hrows in Hr.
  apply (others_spec _ _ _ Hint) in Hr. tauto.
Qed.

Lemma delete_twice_404_witness :
  ServerJs.delete (Sample.later Sample.env) 2
    (snd (ServerJs.delete Sample.env 2 Sample.two_todos))
  = (res_status_json 404 (JError "Todo not found"),
     snd (ServerJs.delete Sample.env 2 Sample.two_todos)).
Proof.
  apply (delete_twice_404 Sample.env (Sample.later Sample.env) 2 Sample.two_todos);
    reflexivity.
Defined.

(** X8. The object [server.js] asks the bucket to delete is
    [uploads/<name>], where [<name>] is what follows the last slash of
    the stored [file_url]; this is the key the create handlers upload
    under whenever the location ends in that key.  One deletion is
    requested, whatever its outcome. *)
Theorem delete_requests_last_segment (env : Env) (id : Z) (w : World)
    (row : Todo.t) (rest : list Todo.t) (base name : string) :
  pg_fault env SELECT_BY_ID = false ->
  List.filter (Pg.has_id id) (todos w) = row :: rest ->
  Todo.file_url row = Some (String.append base (String "/" name)) ->
  char_free "/" name = true ->
  s3_calls (snd (ServerJs.delete env id w))
  = (s3_calls w ++
     [S3.DeleteObject
        {| S3.del_Bucket := SPACES_BUCKET (process_env env);
           S3.del_Key := String.append "uploads/" name |}])%list.
Proof.
  intros Hq Hm Hurl Hn.
  assert (Htr : Js.truthy (Todo.file_url row) = true).
  { rewrite Hurl. simpl. destruct base; reflexivity. }
  unfold ServerJs.delete, try_respond, bind, Pg.select_by_id.
  rewrite Hq, (filter_has_id_int4 _ _ _ _ Hm), Hm, Htr, Hurl. cbn [template].
  rewrite (pop_last_segment _ _ Hn). cbn [template].
  unfold s3_deleteObject_promise.
  destruct (s3_deleteObject env _); [| reflexivity].
  unfold Pg.delete, ret. cbn [fst snd].
  rewrite (filter_has_id_int4 _ _ _ _ Hm).
  destruct (pg_fault env DELETE); reflexivity.
Qed.

Lemma delete_requests_last_segment_witness :
  s3_calls (snd (ServerJs.delete Sample.env 2 Sample.two_todos))
  = [S3.DeleteObject
       {| S3.del_Bucket := Some "workshop";
          S3.del_Key := "uploads/1700000000000-cat.png" |}].
Proof.
  apply (delete_requests_last_segment Sample.env 2 Sample.two_todos Sample.with_photo []
           "https://workshop.sgp1.digitaloceanspaces.com/uploads"
           "1700000000000-cat.png");
    reflexivity.
Defined.

(** X9. The file is deleted before the row.  When the bucket has deleted
    the file and the [DELETE] statement then fails, the answer is 500 and
    the row is still in the table, pointing at a file that is gone. *)
Theorem delete_row_survives_lost_statement (env : Env) (id : Z) (w : World)
    (row : Todo.t) (rest : list Todo.t) :
  pg_fault env SELECT_BY_ID = false ->
  pg_fault env DELETE = true ->
  List.filter (Pg.has_id id) (todos w) = row :: rest ->
  Js.truthy (Todo.file_url row) = true ->
  s3_deleteObject env
    {| S3.del_Bucket := SPACES_BUCKET (process_env env);
       S3.del_Key :=
         String.append "uploads/"
           (template (Js.pop (Js.split "/" (template (Todo.file_url row))))) |}
  = true ->
  ServerJs.delete env id w
  = (res_status_json 500 (JError "Failed to delete todo"),
     with_call
       (S3.DeleteObject
          {| S3.del_Bucket := SPACES_BUCKET (process_env env);
             S3.del_Key :=
               String.append "uploads/"
                 (template (Js.pop (Js.split "/" (template (Todo.file_url row))))) |})
       w).
Proof.
  intros Hq Hd Hm Hurl Hdel.
  unfold ServerJs.delete, try_respond, bind, Pg.select_by_id.
  rewrite Hq, (filter_has_id_int4 _ _ _ _ Hm), Hm, Hurl. unfold s3_deleteObject_promise. rewrite Hdel.
  unfold Pg.delete. cbn [fst snd]. now rewrite Hd, ?(filter_has_id_int4 _ _ _ _ Hm).
Qed.

Lemma delete_row_survives_lost_statement_witness :
  ServerJs.delete Fixture.env_delete_lost 2 Sample.two_todos
  = (res_status_json 500 (JError "Failed to delete todo"),
     {| todos := [Sample.milk; Sample.with_photo];
        todos_id_seq := 3;
        s3_calls :=
          [S3.DeleteObject
             {| S3.del_Bucket := Some "workshop";
                S3.del_Key := "uploads/1700000000000-cat.png" |}] |}).
Proof.
  apply (delete_row_survives_lost_statement Fixture.env_delete_lost 2 Sample.two_todos
           Sample.with_photo []);
    reflexivity.
Defined.

(** ** Create, then list or delete *)

Lemma filter_has_id_none (i : Z) (l : list Todo.t) :
  existsb (Pg.has_id i) l = false -> List.filter (Pg.has_id i) l = [].
Proof.
  induction l as [| r l IH]; simpl; [reflexivity |].
  destruct (Pg.has_id i r); simpl; [discriminate | exact IH].
Qed.

Lemma others_none (i : Z) (l : list Todo.t) :
  existsb (Pg.has_id i) l = false -> others i l = l.
Proof.
  unfold others. induction l as [| r l IH]; simpl; [reflexivity |].
  destruct (Pg.has_id i r); simpl; [discriminate |].
  intros H. now rewrite (IH H).
Qed.

(** X10. A todo created through [server.js] and then deleted leaves the
    table exactly as it was before the create; only the sequence has
    moved on, so the id is not handed out again.  The bucket is not
    called. *)
Theorem create_then_delete_restores (env env' : Env) (form : Multer.Form) (w : World) :
  status (fst (ServerJs.post_todos env form w)) = 201 ->
  pg_fault env' SELECT_BY_ID = false ->
  pg_fault env' DELETE = false ->
  ServerJs.delete env' (todos_id_seq w) (snd (ServerJs.post_todos env form w))
  = (res_json (JMessage "Todo deleted successfully"),
     with_seq (todos_id_seq w + 1) w).
Proof.
  intros H201 Hq Hd.
  destruct (post_todos_201_inv env form w H201) as (t & _ & Hseq & Hex & E).
  cbv zeta in E. rewrite E. cbn [snd].
  set (row := Pg.new_row env (todos_id_seq w) t (Multer.form_description form) None None).
  pose proof (in_sequence_int4 _ Hseq) as Hint.
  assert (Hrow : Pg.has_id (todos_id_seq w) row = true).
  { apply has_id_true. split; [exact Hint | reflexivity]. }
  assert (Hm : List.filter (Pg.has_id (todos_id_seq w)) (todos w ++ [row]) = [row]).
  { rewrite List.filter_app, (filter_has_id_none _ _ Hex). simpl. now rewrite Hrow. }
  assert (Ho : others (todos_id_seq w) (todos w ++ [row]) = todos w).
  { unfold others. rewrite List.filter_app. fold (others (todos_id_seq w) (todos w)).
    rewrite (others_none _ _ Hex). simpl. rewrite Hrow. simpl. apply app_nil_r. }
  unfold ServerJs.delete, try_respond, bind, Pg.select_by_id.
  rewrite Hq, Hint. cbn [todos with_todos with_seq fst snd].
  rewrite Hm. cbn [Js.truthy Todo.file_url row Pg.new_row].
  unfold ret, Pg.delete. cbn [fst snd]. rewrite Hd, Hint.
  cbn [todos with_todos with_seq fst snd].
  fold (others (todos_id_seq w) (todos w ++ [row])). rewrite Ho.
  reflexivity.
Qed.

Lemma create_then_delete_restores_witness :
  ServerJs.delete (Sample.later Sample.env) 3
    (snd (ServerJs.post_todos Sample.env (Sample.form (Some "Water the plants") None)
            Sample.two_todos))
  = (res_json (JMessage "Todo deleted successfully"),
     {| todos := [Sample.milk; Sample.with_photo]; todos_id_seq := 4; s3_calls := [] |}).
Proof.
  apply (create_then_delete_restores Sample.env (Sample.later Sample.env)
           (Sample.form (Some "Water the plants") None) Sample.two_todos);
    reflexivity.
Defined.

(** X11. A todo created strictly later than every row of the table is
    the first item of the next list, exactly as the create answered it,
    followed by the rows that were there before. *)
Theorem create_then_list_first (env env' : Env) (form : Multer.Form) (w : World) :
  status (fst (ServerJs.post_todos env form w)) = 201 ->
  (forall r, In r (todos w) -> Todo.created_at r < CURRENT_TIMESTAMP env) ->
  pg_fault env' SELECT_ALL = false ->
  exists row rest,
    json (fst (ServerJs.post_todos env form w)) = JTodo row /\
    fst (ServerJs.get_todos env' (snd (ServerJs.post_todos env form w)))
    = res_json (JTodos (row :: rest)) /\
    Permutation rest (todos w).
Proof.
  intros H201 Hnew Hq.
  destruct (post_todos_201_inv env form w H201) as (t & _ & _ & _ & E).
  cbv zeta in E. rewrite E. cbn [fst snd json res_status_json].
  set (row := Pg.new_row env (todos_id_seq w) t (Multer.form_description form) None None).
  rewrite (get_todos_ok _ _ Hq). cbn [fst todos with_todos].
  pose proof (merge_sort_Permutation Pg.newest_first (todos w ++ [row])) as Hperm.
  pose proof (StronglySorted_merge_sort Pg.newest_first (todos w ++ [row])) as Hsorted.
  destruct (merge_sort Pg.newest_first (todos w ++ [row])) as [| h tl] eqn:Hms.
  - apply Permutation_nil in Hperm. destruct (todos w); discriminate.
  - assert (Hh : h = row).
    { assert (Hin_h : In h (todos w ++ [row])).
      { apply (Permutation_in h Hperm). now left. }
      apply in_app_iff in Hin_h. destruct Hin_h as [Hold | [<- | []]]; [| reflexivity].
      exfalso. specialize (Hnew h Hold).
      assert (Hin_row : In row (h :: tl)).
      { apply (Permutation_in row (Permutation_sym Hperm)).
        apply in_app_iff. right. now left. }
      destruct Hin_row as [Heq | Htl].
      - rewrite Heq in Hnew. unfold row in Hnew. simpl in Hnew. lia.
      - apply StronglySorted_inv in Hsorted. destruct Hsorted as [_ Hall].
        rewrite Forall_forall in Hall.
        apply list_elem_of_In in Htl. specialize (Hall row Htl).
        unfold Pg.newest_first, row in Hall. simpl in Hall. lia. }
    subst h. exists row, tl. repeat split.
    apply (Permutation_cons_inv (a := row)).
    rewrite Hperm. symmetry. apply Permutation_cons_append.
Qed.

Lemma create_then_list_first_witness :
  exists row rest,
    json (fst (ServerJs.post_todos (Sample.later (Sample.later Sample.env))
                 (Sample.form (Some "Water the plants") None) Sample.two_todos))
    = JTodo row /\
    fst (ServerJs.get_todos Sample.env
           (snd (ServerJs.post_todos (Sample.later (Sample.later Sample.env))
                   (Sample.form (Some "Water the plants") None) Sample.two_todos)))
    = res_json (JTodos (row :: rest)) /\
    Permutation rest (todos Sample.two_todos).
Proof.
  apply (create_then_list_first (Sample.later (Sample.later Sample.env)) Sample.env
           (Sample.form (Some "Water the plants") None) Sample.two_todos).
  - reflexivity.
  - simpl. intros r [<- | [<- | []]]; simpl; lia.
  - reflexivity.
Defined.

(** ** More on update *)

(** X12. Whatever its outcome, an update answers 200, 404 or 500, never
    calls the bucket, never moves the sequence, and leaves every row in
    its place with its [id], [file_url], [file_name] and [created_at]:
    no row appears, disappears or changes key. *)
Theorem update_frame_any_outcome (env : Env) (req : UpdateRequest) (w : World) :
  let resp := fst (ServerJs.update env req w) in
  let w' := snd (ServerJs.update env req w) in
  (status resp = 200 \/ status resp = 404 \/ status resp = 500) /\
  s3_calls w' = s3_calls w /\
  todos_id_seq w' = todos_id_seq w /\
  List.map Todo.id (todos w') = List.map Todo.id (todos w) /\
  List.map Todo.file_url (todos w') = List.map Todo.file_url (todos w) /\
  List.map Todo.file_name (todos w') = List.map Todo.file_name (todos w) /\
  List.map Todo.created_at (todos w') = List.map Todo.created_at (todos w).
Proof.
  cbv zeta.
  destruct (update_cases env req w)
    as [E | [[E _] | (t & r0 & rs & _ & _ & E)]]; cbv zeta in E; rewrite E; simpl.
  - repeat split; auto.
  - repeat split; auto.
  - repeat split; auto; rewrite List.map_map; apply List.map_ext; intros r;
      destruct (Pg.has_id (params_id req) r); reflexivity.
Qed.

(** X13. The row a successful update answers with is a row of the table
    after the update: it has the id of the request, the title as the
    column stores it, the description and the completion flag of the
    body, and the current time as [updated_at]. *)
Theorem update_answers_stored_row (env : Env) (req : UpdateRequest) (w : World) :
  status (fst (ServerJs.update env req w)) = 200 ->
  exists t row,
    Pg.varchar_param 255 (body_title req) = Some (Some t) /\
    json (fst (ServerJs.update env req w)) = JTodo row /\
    In row (todos (snd (ServerJs.update env req w))) /\
    Todo.id row = params_id req /\
    Todo.title row = t /\
    Todo.description row = body_description req /\
    Todo.completed row = body_completed req /\
    Todo.updated_at row = CURRENT_TIMESTAMP env.
Proof.
  destruct (update_cases env req w)
    as [E | [[E _] | (t & r0 & rs & Ht & Hm & E)]]; cbv zeta in E; rewrite E; simpl;
    try discriminate.
  intros _.
  assert (Hin : In r0 (List.filter (Pg.has_id (params_id req)) (todos w)))
    by (rewrite Hm; now left).
  apply filter_In in Hin. destruct Hin as [Hin Hid].
  exists t, (Pg.set_columns env t (body_description req) (body_completed req) r0).
  repeat split; try assumption.
  - apply in_map_iff. exists r0. rewrite Hid. now split.
  - simpl. now apply has_id_true in Hid.
Qed.

Lemma update_answers_stored_row_witness :
  exists t row,
    Pg.varchar_param 255 (body_title (Sample.put 2 (Some "Feed both cats")))
    = Some (Some t) /\
    json (fst (ServerJs.update Sample.env (Sample.put 2 (Some "Feed both cats"))
                 Sample.two_todos)) = JTodo row /\
    In row (todos (snd (ServerJs.update Sample.env (Sample.put 2 (Some "Feed both cats"))
                          Sample.two_todos))) /\
    Todo.id row = 2 /\
    Todo.title row = t /\
    Todo.description row = Some "2% organic" /\
    Todo.completed row = Some true /\
    Todo.updated_at row = 1700000000.
Proof.
  apply (update_answers_stored_row Sample.env (Sample.put 2 (Some "Feed both cats"))
           Sample.two_todos).
  reflexivity.
Defined.

Lemma filter_has_id_map (f : Todo.t -> Todo.t) (i : Z) (l : list Todo.t) :
  (forall r, Todo.id (f r) = Todo.id r) ->
  List.filter (Pg.has_id i) (List.map f l) = List.map f (List.filter (Pg.has_id i) l).
Proof.
  intros Hf. induction l as [| r l IH]; [reflexivity |].
  assert (H : Pg.has_id i (f r) = Pg.has_id i r)
    by (unfold Pg.has_id; now rewrite Hf).
  cbn [List.map List.filter]. rewrite H, IH.
  destruct (Pg.has_id i r); reflexivity.
Qed.

(** X14. Updating is idempotent: the same request served again at the
    same time gives the same answer and leaves the same world as serving
    it once. *)
Theorem update_idempotent (env : Env) (req : UpdateRequest) (w : World) :
  ServerJs.update env req (snd (ServerJs.update env req w))
  = ServerJs.update env req w.
Proof.
  destruct (update_cases env req w)
    as [E | [[E _] | (t & r0 & rs & Ht & Hm & E)]]; cbv zeta in E; rewrite E;
    cbn [snd]; try exact E.
  set (set := Pg.set_columns env t (body_description req) (body_completed req)) in *.
  set (f := fun r : Todo.t => if Pg.has_id (params_id req) r then set r else r).
  assert (Hid : forall r, Todo.id (f r) = Todo.id r).
  { intros r. unfold f. destruct (Pg.has_id (params_id req) r); reflexivity. }
  assert (Hff : forall r, f (f r) = f r).
  { intros r.
    assert (H : Pg.has_id (params_id req) (f r) = Pg.has_id (params_id req) r)
      by (unfold Pg.has_id; now rewrite Hid).
    unfold f at 1. rewrite H. unfold f.
    destruct (Pg.has_id (params_id req) r); reflexivity. }
  assert (Hq : pg_fault env UPDATE = false).
  { revert E. unfold ServerJs.update, try_respond, bind, Pg.update.
    destruct (pg_fault env UPDATE); [discriminate | reflexivity]. }
  unfold ServerJs.update, try_respond, bind, Pg.update.
  rewrite Hq, (filter_has_id_int4 _ _ _ _ Hm), Ht. cbn [todos with_todos].
  rewrite (filter_has_id_map f _ _ Hid), Hm. cbn [List.map].
  unfold ret. cbn [fst snd rows0 List.map].
  f_equal.
  - f_equal. f_equal. fold set.
    assert (Hr0 : Pg.has_id (params_id req) r0 = true).
    { assert (Hin : In r0 (List.filter (Pg.has_id (params_id req)) (todos w)))
        by (rewrite Hm; now left).
      now apply filter_In in Hin. }
    unfold f. rewrite Hr0. reflexivity.
  - unfold with_todos. cbn [todos todos_id_seq s3_calls]. f_equal.
    fold set. fold f. rewrite List.map_map. apply List.map_ext. exact Hff.
Qed.

(** ** The key of the table over any run of requests *)

(** What one request of [server.js] can do to the ids of the table and
    to the sequence: nothing to the ids; or remove the rows of one id; or
    append one row that takes the next value of the sequence. *)
Lemma handle_effect (r : Api.request) (w : World) :
  let w' := snd (Api.handle r w) in
  (List.map Todo.id (todos w') = List.map Todo.id (todos w) /\
   todos_id_seq w <= todos_id_seq w') \/
  (exists i, todos w' = others i (todos w) /\ todos_id_seq w' = todos_id_seq w) \/
  (exists row,
     todos w' = (todos w ++ [row])%list /\
     Todo.id row = todos_id_seq w /\
     todos_id_seq w' = todos_id_seq w + 1).
Proof.
  cbv zeta. destruct r as [env | env form | env req | env id]; cbn [Api.handle].
  - left. unfold ServerJs.get_todos, try_respond, bind, Pg.select_all.
    destruct (pg_fault env SELECT_ALL); simpl; split; (reflexivity || lia).
  - destruct (Z.eq_dec (status (fst (ServerJs.post_todos env form w))) 201) as [H201 | Hno].
    + right; right.
      destruct (post_todos_201_inv env form w H201) as (t & _ & _ & _ & E).
      cbv zeta in E. rewrite E. eexists. repeat split.
    + left. revert Hno. unfold ServerJs.post_todos.
      destruct (Multer.single ServerJs.upload form) as [err | req];
        [intros _; simpl; split; (reflexivity || lia) |].
      unfold ServerJs.create, try_respond, bind.
      destruct (Multer.form_file req) as [file |].
      * unfold s3_upload_promise, assign_to_const, throw.
        destruct (s3_upload env _); intros _; simpl; split; (reflexivity || lia).
      * unfold ret, Pg.insert. cbn [fst snd Pg.varchar_param].
        destruct (pg_fault env INSERT); [intros _; simpl; split; (reflexivity || lia) |].
        destruct (Pg.varchar_param 255 (Multer.form_title req)) as [c |];
          [| intros _; simpl; split; (reflexivity || lia)].
        destruct (Pg.in_sequence (todos_id_seq w));
          [| intros _; simpl; split; (reflexivity || lia)].
        destruct c as [t |]; [| intros _; simpl; split; (reflexivity || lia)].
        destruct (existsb (Pg.has_id (todos_id_seq w)) (todos w));
          [intros _; simpl; split; (reflexivity || lia) |].
        simpl. intros Hno. now contradiction Hno.
  - left.
    destruct (update_cases env req w)
      as [E | [[E _] | (t & r0 & rs & _ & _ & E)]]; cbv zeta in E; rewrite E;
      cbn [snd todos todos_id_seq with_todos]; (split; [| lia]); try reflexivity.
    rewrite List.map_map. apply List.map_ext. intros r.
    destruct (Pg.has_id (params_id req) r); reflexivity.
  - unfold ServerJs.delete, try_respond, bind, Pg.select_by_id.
    destruct (pg_fault env SELECT_BY_ID); [left; simpl; split; (reflexivity || lia) |].
    destruct (Pg.int4 id) eqn:Hint; [| left; simpl; split; (reflexivity || lia)].
    destruct (List.filter (Pg.has_id id) (todos w)) as [| row rest];
      [left; simpl; split; (reflexivity || lia) |].
    destruct (Js.truthy (Todo.file_url row)).
    + unfold s3_deleteObject_promise.
      destruct (s3_deleteObject env _); [| left; simpl; split; (reflexivity || lia)].
      unfold Pg.delete, ret. cbn [fst snd]. rewrite Hint.
      destruct (pg_fault env DELETE); [left; simpl; split; (reflexivity || lia) |].
      right; left. exists id. split; reflexivity.
    + unfold ret, Pg.delete. cbn [fst snd]. rewrite Hint.
      destruct (pg_fault env DELETE); [left; simpl; split; (reflexivity || lia) |].
      right; left. exists id. split; reflexivity.
Qed.

Lemma NoDup_ids_others (i : Z) (l : list Todo.t) :
  NoDup (List.map Todo.id l) -> NoDup (List.map Todo.id (others i l)).
Proof.
  unfold others. induction l as [| r l IH]; simpl; [auto |].
  intros H. apply NoDup_cons in H as [Hr Hl].
  destruct (negb (Pg.has_id i r)); simpl; [| auto].
  apply NoDup_cons. split; [| auto].
  intros Hin. apply Hr. apply list_elem_of_In in Hin. apply list_elem_of_In.
  apply in_map_iff in Hin. destruct Hin as (x & Hx & Hin).
  apply filter_In in Hin. apply in_map_iff. exists x. tauto.
Qed.

Lemma well_keyed_ids (w w' : World) :
  List.map Todo.id (todos w') = List.map Todo.id (todos w) ->
  todos_id_seq w <= todos_id_seq w' ->
  well_keyed w -> well_keyed w'.
Proof.
  unfold well_keyed. intros Hids Hseq [Hnd Hall]. rewrite Hids. split; [exact Hnd |].
  apply Forall_forall. intros r Hr. apply list_elem_of_In in Hr.
  assert (Hin : In (Todo.id r) (List.map Todo.id (todos w)))
    by (rewrite <- Hids; now apply in_map).
  apply in_map_iff in Hin. destruct Hin as (r0 & Heq & Hr0).
  rewrite Forall_forall in Hall. apply list_elem_of_In in Hr0.
  specialize (Hall r0 Hr0). simpl in Hall. lia.
Qed.

Lemma handle_well_keyed (r : Api.request) (w : World) :
  well_keyed w -> well_keyed (snd (Api.handle r w)).
Proof.
  intros Hw. pose proof (handle_effect r w) as H. cbv zeta in H.
  destruct H as [[Hids Hseq] | [(i & Ht & Hseq) | (row & Ht & Hid & Hseq)]].
  - now apply (well_keyed_ids w).
  - destruct Hw as [Hnd Hall]. unfold well_keyed. rewrite Ht, Hseq. split.
    + now apply NoDup_ids_others.
    + apply Forall_forall. intros x Hx. apply list_elem_of_In in Hx.
      apply others_subset in Hx.
      rewrite Forall_forall in Hall. apply Hall. now apply list_elem_of_In.
  - destruct Hw as [Hnd Hall]. unfold well_keyed. rewrite Ht, Hseq. split.
    + rewrite List.map_app. simpl. apply NoDup_app. repeat split.
      * exact Hnd.
      * intros x Hx Hx'. apply list_elem_of_In in Hx, Hx'.
        destruct Hx' as [<- | []].
        apply in_map_iff in Hx. destruct Hx as (r0 & Heq & Hr0).
        rewrite Forall_forall in Hall. apply list_elem_of_In in Hr0.
        specialize (Hall r0 Hr0). simpl in Hall. lia.
      * apply NoDup_singleton.
    + apply Forall_app. split.
      * eapply Forall_impl; [exact Hall |]. simpl. intros; lia.
      * constructor; [lia | constructor].
Qed.

(** X15. Over any run of requests to [server.js], starting from a table
    whose ids are distinct and below the sequence: the ids stay distinct
    and below the sequence, the sequence never goes back, and an id below
    the starting sequence belongs to a row of the final table only if a
    row had it at the start, so that the id of a deleted row is never
    given to another todo. *)
Theorem run_keeps_key (rs : list Api.request) (w : World) :
  well_keyed w ->
  well_keyed (Api.run rs w) /\
  todos_id_seq w <= todos_id_seq (Api.run rs w) /\
  forall r, In r (todos (Api.run rs w)) ->
    In (Todo.id r) (List.map Todo.id (todos w)) \/ todos_id_seq w <= Todo.id r.
Proof.
  revert w. induction rs as [| rq rs IH]; intros w Hw; cbn [Api.run].
  - split; [exact Hw |]. split; [lia |]. intros r Hr. left. now apply in_map.
  - specialize (IH _ (handle_well_keyed rq w Hw)).
    destruct IH as (Hk & Hseq & Hids).
    pose proof (handle_effect rq w) as H. cbv zeta in H.
    split; [exact Hk |].
    destruct H as [[Hi Hs] | [(i & Ht & Hs) | (row & Ht & Hid & Hs)]].
    + split; [lia |]. intros r Hr. destruct (Hids r Hr) as [Hin | Hge].
      * left. now rewrite <- Hi.
      * right. lia.
    + split; [lia |]. intros r Hr. destruct (Hids r Hr) as [Hin | Hge].
      * left. rewrite Ht in Hin. apply in_map_iff in Hin.
        destruct Hin as (x & Heq & Hx). apply others_subset in Hx.
        rewrite <- Heq. apply in_map. tauto.
      * right. lia.
    + split; [lia |]. intros r Hr. destruct (Hids r Hr) as [Hin | Hge].
      * rewrite Ht, List.map_app in Hin. apply in_app_iff in Hin.
        destruct Hin as [Hin | [Heq | []]]; [now left |].
        right. simpl in Heq. lia.
      * right. lia.
Qed.

Lemma run_keeps_key_witness :
  let rs :=
    [ Api.DeleteTodo Sample.env 2;
      Api.PostTodos (Sample.later Sample.env) (Sample.form (Some "Water the plants") None);
      Api.PutTodo (Sample.later Sample.env) (Sample.put 3 (Some "Water the ferns"));
      Api.GetTodos Sample.env ] in
  well_keyed (Api.run rs Sample.two_todos) /\
  todos_id_seq Sample.two_todos <= todos_id_seq (Api.run rs Sample.two_todos) /\
  forall r, In r (todos (Api.run rs Sample.two_todos)) ->
    In (Todo.id r) (List.map Todo.id (todos Sample.two_todos)) \/
    todos_id_seq Sample.two_todos <= Todo.id r.
Proof.
  cbv zeta. apply run_keeps_key.
  split.
  - simpl. repeat constructor; rewrite ?list_elem_of_In; simpl; intuition lia.
  - simpl. repeat constructor; simpl; lia.
Defined.

Example run_does_not_reuse_id :
  let rs :=
    [ Api.DeleteTodo Sample.env 2;
      Api.PostTodos (Sample.later Sample.env) (Sample.form (Some "Water the plants") None) ] in
  List.map Todo.id (todos (Api.run rs Sample.two_todos)) = [1; 3].
Proof. reflexivity. Qed.

(** ** What the upload filter refuses *)

(** X16. Text files are named in the allow-list ([txt]), but the filter
    looks for the same words in the MIME type, and [text/plain] contains
    none of them: a file sent as [text/plain] is refused whatever its
    name, with 500, before the handler runs. *)
Theorem text_plain_refused (env : Env) (form : Multer.Form) (w : World)
    (f : Multer.File) :
  Multer.form_file form = Some f ->
  Multer.mimetype f = "text/plain" ->
  ServerJs.post_todos env form w
  = (res_status_json 500 (JError "Only images, PDFs, and text files are allowed"), w) /\
  Part000.post_todos env form w
  = (res_status_json 500 (JError "Internal server error"), w).
Proof.
  intros Hf Hm.
  unfold ServerJs.post_todos, Part000.post_todos, Multer.single. rewrite Hf.
  cbn [Multer.fileFilter ServerJs.upload Part000.upload].
  unfold ServerJs.fileFilter, Part000.fileFilter. rewrite Hm.
  split; reflexivity.
Qed.

Lemma text_plain_refused_witness :
  ServerJs.post_todos Sample.env (Sample.form (Some "Shopping") (Some Fixture.notes))
    Sample.empty
  = (res_status_json 500 (JError "Only images, PDFs, and text files are allowed"),
     Sample.empty) /\
  Part000.post_todos Sample.env (Sample.form (Some "Shopping") (Some Fixture.notes))
    Sample.empty
  = (res_status_json 500 (JError "Internal server error"), Sample.empty).
Proof.
  apply (text_plain_refused Sample.env (Sample.form (Some "Shopping") (Some Fixture.notes))
           Sample.empty Fixture.notes);
    reflexivity.
Defined.

Lemma get_char_free (c : ascii) (s : string) (n : nat) (a : ascii) :
  char_free c s = true -> String.get n s = Some a -> Ascii.eqb a c = false.
Proof.
  unfold char_free. revert n. induction s as [| x s IH]; intros n; simpl;
    [discriminate |].
  intros H. apply andb_prop in H. destruct H as [Hx Hs].
  destruct n as [| n].
  - intros [= <-]. now apply negb_true_iff in Hx.
  - now apply IH.
Qed.

Lemma step_no_dot (path : string) (i : Z) (st : Path.scan) :
  char_free "." path = true ->
  Path.startDot st = -1 ->
  match Path.step path i st with
  | inl st' => Path.startDot st' = -1
  | inr st' => Path.startDot st' = -1
  end.
Proof.
  intros Hp Hst. unfold Path.step.
  destruct (String.get (Z.to_nat i) path) as [code |] eqn:Hg; [| exact Hst].
  pose proof (get_char_free _ _ _ _ Hp Hg) as Hdot.
  destruct (Ascii.eqb code Path.CHAR_FORWARD_SLASH).
  - destruct (negb (Path.matchedSlash st)); simpl; exact Hst.
  - unfold Path.CHAR_DOT. rewrite Hdot.
    destruct (Path.end_ st =? -1); simpl; rewrite Hst; simpl; rewrite ?Hst;
      reflexivity.
Qed.

Lemma loop_no_dot (path : string) (n : nat) (st : Path.scan) :
  char_free "." path = true ->
  Path.startDot st = -1 ->
  Path.startDot (Path.loop path n st) = -1.
Proof.
  intros Hp. revert st. induction n as [| n IH]; intros st Hst; simpl; [exact Hst |].
  pose proof (step_no_dot path (Z.of_nat n) st Hp Hst) as Hs.
  destruct (Path.step path (Z.of_nat n) st) as [st' | st']; [now apply IH | exact Hs].
Qed.

(** A name without a dot has no extension. *)
Lemma extname_no_dot (path : string) :
  char_free "." path = true -> Path.extname path = "".
Proof.
  intros Hp. unfold Path.extname.
  rewrite (loop_no_dot path (String.length path) Path.scan0 Hp eq_refl).
  reflexivity.
Qed.

(** X17. A file whose name has no dot has no extension, and the filter
    refuses it whatever its MIME type, in every variant: the answer is
    500 and the handler does not run. *)
Theorem name_without_dot_refused (env : Env) (form : Multer.Form) (w : World)
    (f : Multer.File) :
  Multer.form_file form = Some f ->
  char_free "." (Multer.originalname f) = true ->
  ServerJs.post_todos env form w
  = (res_status_json 500 (JError "Only images, PDFs, and text files are allowed"), w) /\
  Part000.post_todos env form w
  = (res_status_json 500 (JError "Internal server error"), w) /\
  Part002.post_todos env form w
  = (res_status_json 500 (JError "Internal server error"), w).
Proof.
  intros Hf Hn.
  unfold ServerJs.post_todos, Part000.post_todos, Part002.post_todos, Multer.single.
  rewrite Hf.
  cbn [Multer.fileFilter ServerJs.upload Part000.upload Part002.upload].
  unfold ServerJs.fileFilter, Part000.fileFilter, Part002.fileFilter.
  rewrite (extname_no_dot _ Hn).
  change (Js.regex_alt_test ServerJs.allowedTypes (Js.toLowerCase "")) with false.
  change (Js.regex_alt_test Part000.allowedTypes (Js.toLowerCase "")) with false.
  change (Js.regex_alt_test Part002.allowedTypes (Js.toLowerCase "")) with false.
  rewrite !andb_false_r. repeat split.
Qed.

Lemma name_without_dot_refused_witness :
  ServerJs.post_todos Sample.env (Sample.form (Some "Build") (Some Fixture.makefile))
    Sample.empty
  = (res_status_json 500 (JError "Only images, PDFs, and text files are allowed"),
     Sample.empty) /\
  Part000.post_todos Sample.env (Sample.form (Some "Build") (Some Fixture.makefile))
    Sample.empty
  = (res_status_json 500 (JError "Internal server error"), Sample.empty) /\
  Part002.post_todos Sample.env (Sample.form (Some "Build") (Some Fixture.makefile))
    Sample.empty
  = (res_status_json 500 (JError "Internal server error"), Sample.empty).
Proof.
  apply (name_without_dot_refused Sample.env
           (Sample.form (Some "Build") (Some Fixture.makefile)) Sample.empty
           Fixture.makefile);
    reflexivity.
Defined.

(** ** The variant with the configuration checks *)





(** X20. Without the bucket's settings the delete of [part_000] still
    deletes a todo that has an attachment: the call on the missing client
    throws inside the inner [try], the row is removed, the answer is 200
    and no request goes to the bucket, so the file stays there. *)
Theorem part_000_delete_without_bucket (env : Env) (id : Z) (w : World)
    (row : Todo.t) (rest : list Todo.t) :
  Part000.dbConfigured env = true ->
  Part000.spacesConfigured env = false ->
  pg_fault env SELECT_BY_ID = false ->
  pg_fault env DELETE = false ->
  List.filter (Pg.has_id id) (todos w) = row :: rest ->
  Part000.delete env id w
  = (res_json (JMessage "Todo deleted successfully"),
     with_todos (others id (todos w)) w).
Proof.
  intros Hdb Hsp Hq Hd Hm.
  unfold Part000.delete, try_respond, bind, Pg.select_by_id, try_catch,
    Part000.pool_query, Part000.s3_deleteObject_call.
  rewrite Hdb, Hsp, Hq, (filter_has_id_int4 _ _ _ _ Hm), Hm.
  destruct (Js.truthy (Todo.file_url row)); unfold throw, ret, Pg.delete;
    cbn [fst snd]; rewrite Hd, ?(filter_has_id_int4 _ _ _ _ Hm); reflexivity.
Qed.

Lemma part_000_delete_without_bucket_witness :
  Part000.delete (Fixture.with_vars Fixture.db_only_vars Sample.env) 2 Sample.two_todos
  = (res_json (JMessage "Todo deleted successfully"),
     {| todos := [Sample.milk]; todos_id_seq := 3; s3_calls := [] |}).
Proof.
  apply (part_000_delete_without_bucket
           (Fixture.with_vars Fixture.db_only_vars Sample.env) 2 Sample.two_todos
           Sample.with_photo []);
    reflexivity.
Defined.

(** ** From the upload to the deletion of the same object *)

Lemma char_free_append (c : ascii) (a b : string) :
  char_free c (String.append a b) = char_free c a && char_free c b.
Proof.
  unfold char_free. induction a as [| x a IH]; [reflexivity |].
  change (String.append (String x a) b) with (String x (String.append a b)).
  cbn [list_ascii_of_string forallb]. rewrite IH. apply andb_assoc.
Qed.

Lemma string_of_uint_slash_free (d : Decimal.uint) :
  char_free "/" (NilEmpty.string_of_uint d) = true.
Proof. induction d; simpl; auto. Qed.

Lemma string_of_Z_slash_free (n : Z) : char_free "/" (Js.string_of_Z n) = true.
Proof.
  unfold Js.string_of_Z, NilZero.string_of_int.
  destruct (Z.to_int n) as [d | d]; unfold NilZero.string_of_uint.
  - destruct d; try reflexivity; apply (string_of_uint_slash_free (_ d)).
  - destruct d; try reflexivity;
      change (char_free "/" (String "-" (NilEmpty.string_of_uint ?x)))
        with (char_free "/" (NilEmpty.string_of_uint x));
      apply string_of_uint_slash_free.
Qed.

(** The create of [part_000] with a file the bucket takes, as an equation
    on the whole world. *)
Lemma part_000_create_with_file_world (env : Env) (req : Multer.Form) (w : World)
    (t : string) (f : Multer.File) (location : string) :
  Part000.dbConfigured env = true ->
  Part000.spacesConfigured env = true ->
  Multer.form_title req = Some t -> t <> "" -> (String.length t <= 255)%nat ->
  Multer.form_file req = Some f ->
  (String.length (Multer.originalname f) <= 255)%nat ->
  let p :=
    {| S3.Bucket := SPACES_BUCKET (process_env env);
       S3.Key :=
         String.append "uploads/"
           (String.append (Js.string_of_Z (Date_now env))
              (String.append "-" (Multer.originalname f)));
       S3.Body := Multer.buffer f;
       S3.ContentType := Multer.mimetype f;
       S3.ACL := "public-read" |} in
  s3_upload env p = Some location ->
  (String.length location <= 500)%nat ->
  pg_fault env INSERT = false ->
  fresh_id w = true ->
  let row :=
    Pg.new_row env (todos_id_seq w) t (Multer.form_description req)
      (Some location) (Some (Multer.originalname f)) in
  Part000.create env req w
  = (res_status_json 201 (JTodo row),
     with_todos (todos w ++ [row])
       (with_seq (todos_id_seq w + 1) (with_call (S3.Upload p) w))).
Proof.
  intros Hdb Hsp Ht Hne Hlen Hf Hname p Hup Hloc Hq Hfresh.
  assert (Htr : Js.truthy (Some t) = true).
  { simpl. destruct (String.eqb_spec t ""); [contradiction | reflexivity]. }
  unfold Part000.create. rewrite Hdb. cbn [negb].
  unfold try_respond, bind, try_catch, Part000.pool_query.
  rewrite Ht, Hf, Hsp, Hdb, Htr. cbn [negb].
  unfold s3_upload_promise. fold p. rewrite Hup. unfold ret. cbn [fst snd].
  rewrite insert_ok; try assumption. reflexivity.
Qed.

(** X21. In [part_000], deleting a todo that was created with a file asks
    the bucket to delete the key the create uploaded, provided the
    location the bucket returned ends in a slash and that key and the
    file name has no slash.  The two requests do not name the same
    bucket: the upload goes to [SPACES_BUCKET], the deletion to
    [DO_SPACES_BUCKET].  After the two requests the table is as it was. *)
Theorem part_000_delete_requests_uploaded_key (env env' : Env) (req : Multer.Form)
    (w : World) (t : string) (f : Multer.File) (base : string) :
  Part000.dbConfigured env = true ->
  Part000.spacesConfigured env = true ->
  Multer.form_title req = Some t -> t <> "" -> (String.length t <= 255)%nat ->
  Multer.form_file req = Some f ->
  (String.length (Multer.originalname f) <= 255)%nat ->
  char_free "/" (Multer.originalname f) = true ->
  let p :=
    {| S3.Bucket := SPACES_BUCKET (process_env env);
       S3.Key :=
         String.append "uploads/"
           (String.append (Js.string_of_Z (Date_now env))
              (String.append "-" (Multer.originalname f)));
       S3.Body := Multer.buffer f;
       S3.ContentType := Multer.mimetype f;
       S3.ACL := "public-read" |} in
  s3_upload env p = Some (String.append base (String "/" (S3.Key p))) ->
  (String.length (String.append base (String "/" (S3.Key p))) <= 500)%nat ->
  pg_fault env INSERT = false ->
  fresh_id w = true ->
  Part000.dbConfigured env' = true ->
  Part000.spacesConfigured env' = true ->
  pg_fault env' SELECT_BY_ID = false ->
  pg_fault env' DELETE = false ->
  Part000.delete env' (todos_id_seq w) (snd (Part000.create env req w))
  = (res_json (JMessage "Todo deleted successfully"),
     {| todos := todos w;
        todos_id_seq := todos_id_seq w + 1;
        s3_calls :=
          s3_calls w ++
          [S3.Upload p;
           S3.DeleteObject
             {| S3.del_Bucket := DO_SPACES_BUCKET (process_env env');
                S3.del_Key := S3.Key p |}] |}).
Proof.
  intros Hdb Hsp Ht Hne Hlen Hf Hname Hslash p Hup Hloc Hq Hfresh Hdb' Hsp' Hq' Hd'.
  rewrite (part_000_create_with_file_world env req w t f _ Hdb Hsp Ht Hne Hlen Hf
             Hname Hup Hloc Hq Hfresh).
  cbn [snd].
  set (url := String.append base (String "/" (S3.Key p))).
  set (row := Pg.new_row env (todos_id_seq w) t (Multer.form_description req)
                (Some url) (Some (Multer.originalname f))).
  assert (Hex : existsb (Pg.has_id (todos_id_seq w)) (todos w) = false).
  { unfold fresh_id in Hfresh. apply andb_prop in Hfresh.
    destruct Hfresh as [_ H]. now apply negb_true_iff in H. }
  assert (Hint : Pg.int4 (todos_id_seq w) = true).
  { unfold fresh_id in Hfresh. apply andb_prop in Hfresh.
    destruct Hfresh as [H _]. now apply in_sequence_int4. }
  assert (Hrow : Pg.has_id (todos_id_seq w) row = true).
  { apply has_id_true. split; [exact Hint | reflexivity]. }
  assert (Hm : List.filter (Pg.has_id (todos_id_seq w)) (todos w ++ [row]) = [row]).
  { rewrite List.filter_app, (filter_has_id_none _ _ Hex). simpl. now rewrite Hrow. }
  assert (Ho : others (todos_id_seq w) (todos w ++ [row]) = todos w).
  { unfold others. rewrite List.filter_app. fold (others (todos_id_seq w) (todos w)).
    rewrite (others_none _ _ Hex). simpl. rewrite Hrow. simpl. apply app_nil_r. }
  assert (Htr : Js.truthy (Todo.file_url row) = true).
  { unfold row, url. simpl. destruct base; reflexivity. }
  assert (Hkey :
    Js.join "/" (Js.slice_last 2 (Js.split "/" (template (Todo.file_url row))))
    = S3.Key p).
  { unfold row, url, p. cbn [template Todo.file_url Pg.new_row S3.Key].
    change (String.append "uploads/" ?x) with (String.append "uploads" (String "/" x)).
    apply slice_last_two_segments; [reflexivity |].
    rewrite char_free_append, string_of_Z_slash_free.
    change (String.append "-" (Multer.originalname f))
      with (String "-" (Multer.originalname f)).
    unfold char_free in *. simpl. exact Hslash. }
  unfold Part000.delete, try_respond, bind, Pg.select_by_id, try_catch,
    Part000.pool_query, Part000.s3_deleteObject_call.
  rewrite Hdb', Hsp', Hq', Hint. cbn [todos with_todos with_seq with_call fst snd].
  rewrite Hm, Htr, Hkey. unfold s3_deleteObject_promise.
  destruct (s3_deleteObject env' _); unfold ret, Pg.delete; cbn [fst snd];
    rewrite Hd', Hint; unfold with_todos, with_call, with_seq;
    cbn [todos todos_id_seq s3_calls];
    fold (others (todos_id_seq w) (todos w ++ [row])); rewrite Ho;
    rewrite <- app_assoc; reflexivity.
Qed.

Lemma part_000_delete_requests_uploaded_key_witness :
  Part000.delete (Sample.later Sample.env) 3
    (snd (Part000.create Sample.env
            (Sample.form (Some "Feed the cat") (Some Sample.photo)) Sample.two_todos))
  = (res_json (JMessage "Todo deleted successfully"),
     {| todos := [Sample.milk; Sample.with_photo];
        todos_id_seq := 4;
        s3_calls :=
          [S3.Upload
             {| S3.Bucket := Some "workshop";
                S3.Key := "uploads/1700000000000-cat.png";
                S3.Body := Some "PNG";
                S3.ContentType := "image/png";
                S3.ACL := "public-read" |};
           S3.DeleteObject
             {| S3.del_Bucket := None;
                S3.del_Key := "uploads/1700000000000-cat.png" |}] |}).
Proof.
  apply (part_000_delete_requests_uploaded_key Sample.env (Sample.later Sample.env)
           (Sample.form (Some "Feed the cat") (Some Sample.photo)) Sample.two_todos
           "Feed the cat" Sample.photo "https://workshop.sgp1.digitaloceanspaces.com");
    try reflexivity.
  - discriminate.
  - simpl. lia.
  - simpl. lia.
  - vm_compute. lia.
Defined.

(** ** The variant that stores the derived name *)

(** X22. In [part_001] a create with a file the bucket takes answers 201
    with a row whose [file_url] is the returned location and whose
    [file_name] is the derived name [<now>-<original name>]: the key of
    the upload is [uploads/] followed by the stored [file_name].  The
    derived name has to fit the 255 characters of the column. *)
Theorem part_001_file_name_is_key_suffix (env : Env) (req : Multer.Form) (w : World)
    (t : string) (f : Multer.File) (location : string) :
  Multer.form_title req = Some t -> (String.length t <= 255)%nat ->
  Multer.form_file req = Some f ->
  let uploadFileName :=
    String.append (Js.string_of_Z (Date_now env))
      (String.append "-" (Multer.originalname f)) in
  (String.length uploadFileName <= 255)%nat ->
  let p :=
    {| S3.Bucket := SPACES_BUCKET (process_env env);
       S3.Key := String.append "uploads/" uploadFileName;
       S3.Body := Multer.buffer f;
       S3.ContentType := Multer.mimetype f;
       S3.ACL := "public-read" |} in
  s3_upload env p = Some location ->
  (String.length location <= 500)%nat ->
  pg_fault env INSERT = false ->
  fresh_id w = true ->
  let row :=
    Pg.new_row env (todos_id_seq w) t (Multer.form_description req)
      (Some location) (Some uploadFileName) in
  Part001.create env req w
  = (res_status_json 201 (JTodo row),
     with_todos (todos w ++ [row])
       (with_seq (todos_id_seq w + 1) (with_call (S3.Upload p) w))).
Proof.
  intros Ht Hlen Hf u Hname p Hup Hloc Hq Hfresh.
  unfold Part001.create, try_respond, bind. rewrite Ht, Hf.
  unfold s3_upload_promise. fold u. fold p. rewrite Hup. unfold ret. cbn [fst snd].
  rewrite insert_ok; try assumption. reflexivity.
Qed.

Lemma part_001_file_name_is_key_suffix_witness :
  Part001.create Sample.env (Sample.form (Some "Feed the cat") (Some Sample.photo))
    Sample.empty
  = (res_status_json 201
       (JTodo (Pg.new_row Sample.env 1 "Feed the cat" (Some "2%")
                 (Some "https://workshop.sgp1.digitaloceanspaces.com/uploads/1700000000000-cat.png")
                 (Some "1700000000000-cat.png"))),
     with_todos
       [Pg.new_row Sample.env 1 "Feed the cat" (Some "2%")
          (Some "https://workshop.sgp1.digitaloceanspaces.com/uploads/1700000000000-cat.png")
          (Some "1700000000000-cat.png")]
       (with_seq 2
          (with_call
             (S3.Upload
                {| S3.Bucket := Some "workshop";
                   S3.Key := "uploads/1700000000000-cat.png";
                   S3.Body := Some "PNG";
                   S3.ContentType := "image/png";
                   S3.ACL := "public-read" |})
             Sample.empty))).
Proof.
  apply (part_001_file_name_is_key_suffix Sample.env
           (Sample.form (Some "Feed the cat") (Some Sample.photo)) Sample.empty
           "Feed the cat" Sample.photo
           "https://workshop.sgp1.digitaloceanspaces.com/uploads/1700000000000-cat.png");
    try reflexivity.
  - simpl. lia.
  - vm_compute. lia.
  - vm_compute. lia.
Defined.

(** ** The variant with temporary files *)

(** X23. The upload middleware of [part_002] writes files to disk, so
    [req.file.buffer] is undefined, and that is what its create handler
    passes as [Body]: every upload request it makes carries no bytes. *)
Theorem part_002_upload_without_body (env : Env) (form : Multer.Form) (w : World)
    (c : S3.call) :
  In c (s3_calls (snd (Part002.post_todos env form w))) ->
  In c (s3_calls w) \/ exists p, c = S3.Upload p /\ S3.Body p = None.
Proof.
  unfold Part002.post_todos, Multer.single.
  destruct (Multer.form_file form) as [f |] eqn:Hf.
  - destruct (Multer.fileFilter Part002.upload f) as [err | [|]]; [now left | |].
    + destruct (_ <=? _); [now left |].
      unfold Part002.create, try_respond. cbn [Multer.form_title Multer.form_file].
      destruct (Js.truthy (Multer.form_title form)); cbn [negb]; [| now left].
      unfold bind, s3_upload_promise.
      cbn [Multer.stored Multer.storage Part002.upload Multer.buffer].
      destruct (s3_upload env _) as [location |]; unfold ret; cbn [fst snd].
      * match goal with
        | |- context [Pg.insert ?e ?t ?d ?u ?n ?w0] =>
            destruct (insert_cases e t d u n w0)
              as [(err & w1 & E & _ & Hc) | (s & c_u & c_n & _ & _ & _ & E)];
            rewrite E; cbn [fst snd]
        end.
        -- rewrite Hc. cbn [s3_calls with_call]. intros Hin.
           apply in_app_iff in Hin. destruct Hin as [Hin | [<- | []]]; [now left |].
           right. eexists. split; reflexivity.
        -- cbn [s3_calls with_call with_todos with_seq]. intros Hin.
           apply in_app_iff in Hin. destruct Hin as [Hin | [<- | []]]; [now left |].
           right. eexists. split; reflexivity.
      * cbn [s3_calls with_call]. intros Hin.
        apply in_app_iff in Hin. destruct Hin as [Hin | [<- | []]]; [now left |].
        right. eexists. split; reflexivity.
    + unfold Part002.create, try_respond. cbn [Multer.form_title Multer.form_file].
      destruct (Js.truthy (Multer.form_title form)); cbn [negb]; [| now left].
      unfold bind, ret. cbn [fst snd].
      match goal with
      | |- context [Pg.insert ?e ?t ?d ?u ?n ?w0] =>
          destruct (insert_cases e t d u n w0)
            as [(err & w1 & E & _ & Hc) | (s & c_u & c_n & _ & _ & _ & E)];
          rewrite E; cbn [fst snd]
      end; [rewrite Hc |]; now left.
  - unfold Part002.create, try_respond.
    destruct (Js.truthy (Multer.form_title form)); cbn [negb]; [| now left].
    unfold bind. rewrite Hf. unfold ret. cbn [fst snd].
    match goal with
    | |- context [Pg.insert ?e ?t ?d ?u ?n ?w0] =>
        destruct (insert_cases e t d u n w0)
          as [(err & w1 & E & _ & Hc) | (s & c_u & c_n & _ & _ & _ & E)];
        rewrite E; cbn [fst snd]
    end; [rewrite Hc |]; now left.
Qed.

Lemma part_002_upload_without_body_witness :
  exists p,
    s3_calls (snd (Part002.post_todos Sample.env
                     (Sample.form (Some "Feed the cat") (Some Sample.photo))
                     Sample.empty)) = [S3.Upload p] /\
    S3.Body p = None.
Proof.
  destruct (part_002_upload_without_body Sample.env
              (Sample.form (Some "Feed the cat") (Some Sample.photo)) Sample.empty
              (S3.Upload
                 {| S3.Bucket := Some "workshop";
                    S3.Key := "uploads/1700000000000-cat.png";
                    S3.Body := None;
                    S3.ContentType := "image/png";
                    S3.ACL := "public-read" |}))
    as [[] | (p & Hp & Hbody)].
  - left. reflexivity.
  - exists p. split; [rewrite <- Hp; reflexivity | exact Hbody].
Defined.

(** X24. [uploadToSpaces] removes the temporary file on every path on
    which it could read it: whether the bucket takes the upload or
    refuses it, the file at [file.path] is gone afterwards, no other file
    is touched, exactly one upload was requested, under
    [todos/<now>-<original name>] with the content of the file, and the
    outcome is the location with that key or the bucket's error.  When
    the temporary file cannot be read, the error is thrown before
    anything is uploaded. *)
Theorem uploadToSpaces_cleans_up (env : Env) (f : Part002.DiskFile)
    (fs : gmap string string) (w : World) :
  match fs !! Part002.path f with
  | None => Part002.uploadToSpaces env f fs w = (Throw Fs.ENOENT, fs, w)
  | Some content =>
      let p :=
        {| S3.Bucket := DO_SPACES_BUCKET (process_env env);
           S3.Key :=
             String.append "todos/"
               (String.append (Js.string_of_Z (Date_now env))
                  (String.append "-" (Multer.originalname (Part002.file f))));
           S3.Body := Some content;
           S3.ContentType := Multer.mimetype (Part002.file f);
           S3.ACL := "public-read" |} in
      Part002.uploadToSpaces env f fs w
      = (match s3_upload env p with
         | Some location => Return (location, S3.Key p)
         | None => Throw S3.rejected
         end,
         delete (Part002.path f) fs,
         with_call (S3.Upload p) w)
  end.
Proof.
  unfold Part002.uploadToSpaces, Fs.readFileSync.
  destruct (fs !! Part002.path f) as [content |] eqn:Hfs; [| reflexivity].
  cbv zeta. unfold s3_upload_promise.
  destruct (s3_upload env _) as [location |].
  - unfold Fs.unlinkSync. rewrite Hfs. reflexivity.
  - unfold Part002.cleanup_and_rethrow, Fs.existsSync, Fs.unlinkSync. rewrite Hfs.
    reflexivity.
Qed.

Example uploadToSpaces_sample :
  let f := {| Part002.file := Sample.photo; Part002.path := "uploads/3f9a" |} in
  let fs : gmap string string := {[ "uploads/3f9a" := "PNG"; "uploads/77c1" := "PDF" ]} in
  let '(out, fs', w') := Part002.uploadToSpaces Sample.env_bucket_down f fs Sample.empty in
  out = Throw S3.rejected /\
  fs' !! "uploads/3f9a" = None /\
  fs' !! "uploads/77c1" = Some "PDF" /\
  List.map S3.is_upload (s3_calls w') = [true].
Proof. vm_compute. repeat split. Qed.

(** X25. The delete of [part_002] asks the bucket to delete the last two
    segments of the stored [file_url], in the bucket named by
    [DO_SPACES_BUCKET]: a location ending in [/<dir>/<name>] gives the key
    [<dir>/<name>], whether the object was stored under [uploads/] or
    under [todos/].  The outcome of that request is ignored: when the
    statements reach the database the rows of the id are removed and the
    answer is 200. *)
Theorem part_002_delete_requests_two_segments (env : Env) (id : Z) (w : World)
    (row : Todo.t) (rest : list Todo.t) (base dir name : string) :
  pg_fault env SELECT_BY_ID = false ->
  pg_fault env DELETE = false ->
  List.filter (Pg.has_id id) (todos w) = row :: rest ->
  Todo.file_url row
  = Some (String.append base (String "/" (String.append dir (String "/" name)))) ->
  char_free "/" dir = true ->
  char_free "/" name = true ->
  Part002.delete env id w
  = (res_json (JMessage "Todo deleted successfully"),
     with_todos (others id (todos w))
       (with_call
          (S3.DeleteObject
             {| S3.del_Bucket := DO_SPACES_BUCKET (process_env env);
                S3.del_Key := String.append dir (String "/" name) |})
          w)).
Proof.
  intros Hq Hd Hm Hurl Hdir Hname.
  assert (Htr : Js.truthy (Todo.file_url row) = true).
  { rewrite Hurl. simpl. destruct base; reflexivity. }
  unfold Part002.delete, try_respond, bind, Pg.select_by_id, try_catch.
  rewrite Hq, (filter_has_id_int4 _ _ _ _ Hm), Hm, Htr, Hurl. cbn [template].
  rewrite (slice_last_two_segments _ _ _ Hdir Hname).
  unfold s3_deleteObject_promise.
  destruct (s3_deleteObject env _); unfold ret, Pg.delete; cbn [fst snd];
    rewrite Hd, ?(filter_has_id_int4 _ _ _ _ Hm); reflexivity.
Qed.

Lemma part_002_delete_requests_two_segments_witness :
  Part002.delete Sample.env_bucket_down 2 Sample.two_todos
  = (res_json (JMessage "Todo deleted successfully"),
     with_todos [Sample.milk]
       (with_call
          (S3.DeleteObject
             {| S3.del_Bucket := None;
                S3.del_Key := "uploads/1700000000000-cat.png" |})
          Sample.two_todos)).
Proof.
  apply (part_002_delete_requests_two_segments Sample.env_bucket_down 2 Sample.two_todos
           Sample.with_photo [] "https://workshop.sgp1.digitaloceanspaces.com"
           "uploads" "1700000000000-cat.png");
    reflexivity.
Defined.
